(** * streamer: lambda/function/config.py

    A shallow embedding of the configuration module of the streamer
    lambda function, and the properties of its object fetcher
    ([get_s3_object]) and of its [ConfigManager].

    Python values are dynamically typed: they are embedded as [pyobj].
    A Python [str] is a [string] holding the UTF-8 encoding of the text,
    a [bytes] object is a [list byte].  Exceptions are explicit: a
    computation that can raise has type [result A]. *)

From Stdlib Require Import ZArith NArith Ascii String List.
From Stdlib.Strings Require Import Byte.
From stdpp Require Import base tactics option list strings pretty gmap sets.

Set Warnings "-register-all".

Local Open Scope string_scope.
Local Open Scope Z_scope.
Local Open Scope list_scope.

(** ** Exceptions and the error monad *)

(** Why [dacite.from_dict] rejected a record.  dacite's exception classes
    changed between releases (an unknown enum name surfaces as the hook's
    [KeyError] or as [MissingValueError]); the embedding keeps the cause. *)
Inductive decode_fault :=
  | NotAMapping
  | MissingValue
  | WrongType
  | UnknownEnumName.

Inductive exn :=
  | ClientError (Code Message : string)
  | StoreFault (name : string)
  | UnicodeDecodeError
  | AttributeError
  | TypeError
  | ValueError
  | KeyError (key : string)
  | MalformedConfig (field : string) (cause : decode_fault)
  | OSError
  | OtherError (name : string).

Inductive result (A : Type) :=
  | Return (a : A)
  | Raise (e : exn).
Arguments Return {A} a.
Arguments Raise {A} e.

#[global] Instance result_ret : MRet result := @Return.
#[global] Instance result_bind : MBind result := λ A B f m,
  match m with
  | Return a => f a
  | Raise e => Raise e
  end.
#[global] Instance result_fmap : FMap result := λ A B f m,
  match m with
  | Return a => Return (f a)
  | Raise e => Raise e
  end.

(** ** Python values *)

Inductive StorageMode :=
  | TEST_MODE
  | S3_ES
  | S3_ES_NO_UNMATCHED
  | S3_ES_NO_RETWEETS.

Inductive ImageStorageMode :=
  | ACTIVE
  | INACTIVE.

(** [PyFloat] carries the binary64 bit pattern; no operation of the
    module looks inside a float. *)
Inductive pyobj :=
  | PyNone
  | PyBool (b : bool)
  | PyInt (z : Z)
  | PyFloat (bits : N)
  | PyStr (s : string)
  | PyList (items : list pyobj)
  | PyDict (entries : list (string * pyobj))
  | PyStorageMode (m : StorageMode)
  | PyImageStorageMode (m : ImageStorageMode).

(** A [dict] with [str] keys, in insertion order.  [dict_get d k] is
    [d[k]] where it exists. *)
Fixpoint dict_get {V} (d : list (string * V)) (k : string) : option V :=
  match d with
  | [] => None
  | (k', v) :: d' => if String.eqb k' k then Some v else dict_get d' k
  end.

Definition dict_keys {V} (d : list (string * V)) : list string := d.*1.

(** ** Strings and integers *)

Module Str.

(** [s.replace(old, new)] for a one-character [old]. *)
Fixpoint replace (old : ascii) (new : string) (s : string) : string :=
  match s with
  | EmptyString => EmptyString
  | String c s' =>
      if Ascii.eqb c old then new +:+ replace old new s'
      else String c (replace old new s')
  end.

(** The characters of [s], as [for c in s] yields them (one per byte:
    exact on ASCII text). *)
Fixpoint chars (s : string) : list string :=
  match s with
  | EmptyString => []
  | String c s' => String c EmptyString :: chars s'
  end.

End Str.

Module Int.

(** ASCII white space, as [int()] skips it around the literal. *)
Definition is_space (c : ascii) : bool :=
  let n := N_of_ascii c in
  ((9 <=? n) && (n <=? 13) || (n =? 32))%N.

Definition digit_of (c : ascii) : option Z :=
  let n := N_of_ascii c in
  if ((48 <=? n) && (n <=? 57))%N then Some (Z.of_N n - 48) else None.

Fixpoint all_space (s : string) : bool :=
  match s with
  | EmptyString => true
  | String c s' => is_space c && all_space s'
  end.

Fixpoint lstrip (s : string) : string :=
  match s with
  | EmptyString => EmptyString
  | String c s' => if is_space c then lstrip s' else s
  end.

(** The digits of a base-10 literal: single underscores are allowed
    between digits, white space only after the last digit.  [prev]
    tells that the previous character was a digit. *)
Fixpoint digits (prev : bool) (s : string) (acc : Z) : option Z :=
  match s with
  | EmptyString => if prev then Some acc else None
  | String c s' =>
      match digit_of c with
      | Some d => digits true s' (10 * acc + d)
      | None =>
          if Ascii.eqb c "_" then
            if prev then digits false s' acc else None
          else if prev && all_space s then Some acc else None
      end
  end.

(** An optional sign in front of the digits. *)
Definition sign (s : string) : bool * string :=
  match s with
  | String c s' =>
      if Ascii.eqb c "-" then (true, s')
      else if Ascii.eqb c "+" then (false, s')
      else (false, s)
  | EmptyString => (false, s)
  end.

(** [int(s)] for an ASCII [s]: optional white space, an optional sign,
    the digits, optional white space.  Precision is arbitrary.  The
    digits and spaces of Unicode outside ASCII are not part of the
    embedding. *)
Definition parse (s : string) : result Z :=
  let '(neg, body) := sign (lstrip s) in
  match digits false body 0 with
  | Some n => Return (if neg then - n else n)
  | None => Raise ValueError
  end.

(** A string of decimal digits. *)
Fixpoint numeral (s : string) : bool :=
  match s with
  | EmptyString => true
  | String c s' => bool_decide (is_Some (digit_of c)) && numeral s'
  end.

(** [str(n)] *)
Definition str (n : Z) : string := pretty n.

(** [max(l)] *)
Definition max (l : list Z) : result Z :=
  match l with
  | [] => Raise ValueError
  | x :: l' => Return (foldl Z.max x l')
  end.

End Int.

(** ** UTF-8 *)

Module Utf8.

Definition cont (b : N) : bool := ((128 <=? b) && (b <=? 191))%N.
Definition within (lo hi b : N) : bool := ((lo <=? b) && (b <=? hi))%N.

(** Well-formed UTF-8 (RFC 3629), what [bytes.decode('utf-8')] accepts. *)
Fixpoint valid (bs : list N) : bool :=
  match bs with
  | [] => true
  | b :: r =>
      if (b <? 128)%N then valid r
      else if within 194 223 b then
        match r with
        | c1 :: r' => cont c1 && valid r'
        | _ => false
        end
      else if within 224 239 b then
        match r with
        | c1 :: c2 :: r' =>
            (if (b =? 224)%N then within 160 191 c1
             else if (b =? 237)%N then within 128 159 c1
             else cont c1)
            && cont c2 && valid r'
        | _ => false
        end
      else if within 240 244 b then
        match r with
        | c1 :: c2 :: c3 :: r' =>
            (if (b =? 240)%N then within 144 191 c1
             else if (b =? 244)%N then within 128 143 c1
             else cont c1)
            && cont c2 && cont c3 && valid r'
        | _ => false
        end
      else false
  end.

(** [bs.decode('utf-8')] *)
Definition decode (bs : list byte) : result string :=
  if valid (Byte.to_N <$> bs) then Return (string_of_list_byte bs)
  else Raise UnicodeDecodeError.

End Utf8.

(** ** The object store *)

(** One event of the stream [response['Payload']]: a dict of which the
    fetcher looks at two keys.  [ev_End] is ['End' in event];
    [ev_Records] is [event['Records']['Payload']] when
    ['Records' in event]. *)
Record event := Event {
  ev_End : bool;
  ev_Records : option (list byte)
}.

Definition RecordsEvent (payload : list byte) : event := Event false (Some payload).
Definition EndEvent : event := Event true None.
Definition StatsEvent : event := Event false None.

(** The keyword arguments of [select_object_content]. *)
Record select_request := SelectRequest {
  Bucket : string;
  Key : string;
  ExpressionType : string;
  Expression : string;
  InputSerialization : pyobj;
  OutputSerialization : pyobj
}.

(** What one call of [select_object_content] does: it returns a response,
    whose ['Payload'] is a finite stream of events, or it raises. *)
Inductive outcome :=
  | Response (Payload : list event)
  | Fails (exc : exn).

(** The client is scripted: [s3_client n req] is the outcome of the
    request [req] when [n] requests were issued before it. *)
Definition s3_client := nat → select_request → outcome.

(** A line of [logger.error]: the error code, the message and the key. *)
Record log_record := LogError {
  log_code : string;
  log_message : string;
  log_key : string
}.

(** The state around the fetcher: how many requests the client has
    received, and the log. *)
Record world := World {
  requests : nat;
  log : list log_record
}.

Definition world0 : world := World 0 [].

(** The body of [for event in response['Payload']], folded over the
    stream: the state is [(repeat, records)]. *)
Definition for_event (st : bool * list byte) (ev : event) : bool * list byte :=
  let '(repeat, records) := st in
  let repeat := if ev_End ev then false else repeat in
  let records :=
    match ev_Records ev with
    | Some payload => records ++ payload
    | None => records
    end in
  (repeat, records).

Definition for_events (payload : list event) (st : bool * list byte) : bool * list byte :=
  foldl for_event st payload.

(** [while repeat: ...] of [get_s3_object], entered with [repeat = True].
    The loop has no bound in the source: [fuel] bounds the number of
    iterations and [None] tells that it ran out. *)
Fixpoint while_repeat (fuel : nat) (client : s3_client) (req : select_request)
    (records : list byte) (w : world) : option (result (list byte) * world) :=
  match fuel with
  | O => None
  | S fuel =>
      let w1 := World (S (requests w)) (log w) in
      match client (requests w) req with
      | Fails (ClientError code message) =>
          if String.eqb code "NoSuchKey" then
            while_repeat fuel client req records
              (World (S (requests w)) (log w ++ [LogError code message (Key req)]))
          else Some (Raise (ClientError code message), w1)
      | Fails exc => Some (Raise exc, w1)
      | Response payload =>
          let '(repeat, records) := for_events payload (true, records) in
          if repeat then while_repeat fuel client req records w1
          else Some (Return records, w1)
      end
  end.

(** The request [get_s3_object] issues, the same at every iteration. *)
Definition select_all (bucket key : string) (input_serialization : pyobj)
    : select_request :=
  SelectRequest bucket key "SQL" "select * from s3object"
    input_serialization (PyDict [("JSON", PyDict [])]).

Definition get_s3_object (fuel : nat) (client : s3_client)
    (bucket key : string) (input_serialization : pyobj) (w : world)
    : option (result string * world) :=
  '(r, w') ← while_repeat fuel client
               (select_all bucket key input_serialization) [] w;
  Some (r ≫= Utf8.decode, w').

(** The payload bytes of the data fragments of a stream, in stream
    order. *)
Definition fragments (payload : list event) : list byte :=
  concat (omap ev_Records payload).

(** Whether the stream holds an end marker. *)
Definition has_End (payload : list event) : bool := existsb ev_End payload.

(** An exception of the client that is not a [ClientError] with the
    code [NoSuchKey]. *)
Definition fatal (exc : exn) : Prop :=
  ∀ message, exc ≠ ClientError "NoSuchKey" message.

(** A client that answers the successive requests with the outcomes of a
    list, and with [last] once the list is used up. *)
Definition scripted (outs : list outcome) (last : outcome) : s3_client :=
  λ n _, nth n outs last.

(** ** Project configurations *)

Definition StorageMode_name (m : StorageMode) : string :=
  match m with
  | TEST_MODE => "TEST_MODE"
  | S3_ES => "S3_ES"
  | S3_ES_NO_UNMATCHED => "S3_ES_NO_UNMATCHED"
  | S3_ES_NO_RETWEETS => "S3_ES_NO_RETWEETS"
  end.

Definition StorageMode_value (m : StorageMode) : Z :=
  match m with
  | TEST_MODE => 1
  | S3_ES => 2
  | S3_ES_NO_UNMATCHED => 3
  | S3_ES_NO_RETWEETS => 4
  end.

Definition ImageStorageMode_name (m : ImageStorageMode) : string :=
  match m with
  | ACTIVE => "ACTIVE"
  | INACTIVE => "INACTIVE"
  end.

Definition ImageStorageMode_value (m : ImageStorageMode) : Z :=
  match m with
  | ACTIVE => 1
  | INACTIVE => 2
  end.

(** [converter]: the two type hooks, [StorageMode[x]] and
    [ImageStorageMode[x]], a lookup of the member by its name.  [None]
    tells that the lookup raised. *)
Module converter.

Definition StorageMode (x : pyobj) : option StorageMode :=
  match x with
  | PyStr name =>
      List.find (λ m, String.eqb (StorageMode_name m) name)
        [TEST_MODE; S3_ES; S3_ES_NO_UNMATCHED; S3_ES_NO_RETWEETS]
  | _ => None
  end.

Definition ImageStorageMode (x : pyobj) : option ImageStorageMode :=
  match x with
  | PyStr name =>
      List.find (λ m, String.eqb (ImageStorageMode_name m) name)
        [ACTIVE; INACTIVE]
  | _ => None
  end.

End converter.

Record Conf := mkConf {
  keywords : list string;
  lang : list string;
  locales : list string;
  slug : string;
  storage_mode : StorageMode;
  image_storage_mode : ImageStorageMode;
  model_endpoints : option (list (string * string))
}.

Module FilterConf.
Record t := mk {
  keywords : gset string;
  lang : gset string
}.
End FilterConf.

(** ** dacite.from_dict, at the data class [Conf] *)

Module dacite.

(** [is_instance(value, str)] *)
Definition as_str (v : pyobj) : option string :=
  match v with
  | PyStr s => Some s
  | _ => None
  end.

(** [is_instance(value, List[str])] *)
Definition as_list_str (v : pyobj) : option (list string) :=
  match v with
  | PyList items => mapM as_str items
  | _ => None
  end.

(** [is_instance(value, Dict[str, str])] *)
Definition as_dict_str_str (v : pyobj) : option (list (string * string)) :=
  match v with
  | PyDict entries => mapM (λ '(k, x), pair k <$> as_str x) entries
  | _ => None
  end.

(** A field without default whose type is not [Optional]: the value
    under its name goes through [build] (the type hook, or the type
    check). *)
Definition required {A} (data : list (string * pyobj)) (name : string)
    (build : pyobj → option A) (fault : decode_fault) : result A :=
  match dict_get data name with
  | None => Raise (MalformedConfig name MissingValue)
  | Some v =>
      match build v with
      | Some a => Return a
      | None => Raise (MalformedConfig name fault)
      end
  end.

(** A field of type [Optional[...]]: absent and [None] both give
    [None]. *)
Definition optional {A} (data : list (string * pyobj)) (name : string)
    (build : pyobj → option A) : result (option A) :=
  match dict_get data name with
  | None | Some PyNone => Return None
  | Some v =>
      match build v with
      | Some a => Return (Some a)
      | None => Raise (MalformedConfig name WrongType)
      end
  end.

(** [dacite.from_dict(data_class=Conf, data=data,
    config=dacite.Config(type_hooks=converter))]: the fields are built
    in the order of the data class, keys the class does not have are
    ignored. *)
Definition from_dict (data : pyobj) : result Conf :=
  match data with
  | PyDict data =>
      keywords ← required data "keywords" as_list_str WrongType;
      lang ← required data "lang" as_list_str WrongType;
      locales ← required data "locales" as_list_str WrongType;
      slug ← required data "slug" as_str WrongType;
      storage_mode ←
        required data "storage_mode" converter.StorageMode UnknownEnumName;
      image_storage_mode ←
        required data "image_storage_mode" converter.ImageStorageMode
          UnknownEnumName;
      model_endpoints ← optional data "model_endpoints" as_dict_str_str;
      Return (mkConf keywords lang locales slug storage_mode
                image_storage_mode model_endpoints)
  | _ => Raise (MalformedConfig "" NotAMapping)
  end.

End dacite.

(** [dataclasses.asdict(conf)]: enum members stay enum members. *)
Definition asdict (conf : Conf) : pyobj :=
  PyDict [
    ("keywords", PyList (PyStr <$> keywords conf));
    ("lang", PyList (PyStr <$> lang conf));
    ("locales", PyList (PyStr <$> locales conf));
    ("slug", PyStr (slug conf));
    ("storage_mode", PyStorageMode (storage_mode conf));
    ("image_storage_mode", PyImageStorageMode (image_storage_mode conf));
    ("model_endpoints",
      match model_endpoints conf with
      | None => PyNone
      | Some d => PyDict (prod_map id PyStr <$> d)
      end)
  ].

(** The version label [_<n>]. *)
Definition version_label (n : Z) : string := "_" +:+ Int.str n.

(** ** Iteration, indexing and methods on dynamically typed values *)

(** [for x in o] *)
Definition py_iter (o : pyobj) : result (list pyobj) :=
  match o with
  | PyList items => Return items
  | PyDict entries => Return (PyStr <$> dict_keys entries)
  | PyStr s => Return (PyStr <$> Str.chars s)
  | _ => Raise TypeError
  end.

(** [o[key]] for a [str] key *)
Definition py_getitem (o : pyobj) (key : string) : result pyobj :=
  match o with
  | PyDict entries =>
      match dict_get entries key with
      | Some v => Return v
      | None => Raise (KeyError key)
      end
  | _ => Raise TypeError
  end.

(** [key.replace('_', '')] *)
Definition py_replace_underscores (key : pyobj) : result string :=
  match key with
  | PyStr s => Return (Str.replace "_" "" s)
  | _ => Raise AttributeError
  end.

(** ** json.dump *)

Module json.

(** What an encoder has written when it stops: the text, and the
    exception that stopped it, if any. *)
Definition out : Type := string * option exn.

Definition yield (s : string) : out := (s, None).

Definition raise (e : exn) : out := (EmptyString, Some e).

Definition andthen (a b : out) : out :=
  match a with
  | (s, Some e) => (s, Some e)
  | (s, None) => (s +:+ b.1, b.2)
  end.

Infix "+>" := andthen (at level 60, right associativity).

Fixpoint spaces (n : nat) : string :=
  match n with
  | O => EmptyString
  | S n => String " " (spaces n)
  end.

(** ['\n' + ' ' * 4 * level] *)
Definition newline_indent (level : nat) : string :=
  String "010" (spaces (4 * level)).

(** The items of a non-empty list, each after its separator. *)
Definition each_item (iterencode : pyobj → out) (separator : string)
    : bool → list pyobj → out :=
  fix each first items :=
    match items with
    | [] => yield ""
    | value :: items =>
        yield (if first then "" else separator) +>
        iterencode value +>
        each false items
    end.

(** The entries of a non-empty dict. *)
Definition each_entry (encoder : string → string)
    (iterencode : pyobj → out) (separator : string)
    : bool → list (string * pyobj) → out :=
  fix each first entries :=
    match entries with
    | [] => yield ""
    | (key, value) :: entries =>
        yield (if first then "" else separator) +>
        yield (encoder key) +>
        yield ": " +>
        iterencode value +>
        each false entries
    end.

Section Encoder.

(** The two text primitives of the [json] module: the escaped and
    quoted form of a [str], and [float.__repr__]. *)
Variable encoder : string → string.
Variable floatstr : N → string.

(** [JSONEncoder(indent=4).iterencode(o)], the chunks joined.  An
    object that is none of dict, list, str, int, float, bool, [None]
    goes to [default], which raises [TypeError]. *)
Fixpoint iterencode (o : pyobj) (level : nat) : out :=
  match o with
  | PyStr s => yield (encoder s)
  | PyNone => yield "null"
  | PyBool true => yield "true"
  | PyBool false => yield "false"
  | PyInt z => yield (Int.str z)
  | PyFloat bits => yield (floatstr bits)
  | PyList [] => yield "[]"
  | PyList items =>
      yield ("[" +:+ newline_indent (S level)) +>
      each_item (λ value, iterencode value (S level))
        ("," +:+ newline_indent (S level)) true items +>
      yield (newline_indent level) +>
      yield "]"
  | PyDict [] => yield "{}"
  | PyDict entries =>
      yield "{" +>
      yield (newline_indent (S level)) +>
      each_entry encoder (λ value, iterencode value (S level))
        ("," +:+ newline_indent (S level)) true entries +>
      yield (newline_indent level) +>
      yield "}"
  | PyStorageMode _ | PyImageStorageMode _ => raise TypeError
  end.

(** [json.dump(obj, f, indent=4)]: every chunk is written to [f] as
    soon as it is produced. *)
Definition dump (obj : pyobj) : out := iterencode obj 0.

End Encoder.

End json.

(** ** ConfigManager *)

Module ConfigManager.

Record t := mk {
  config : list Conf;
  filter_config : FilterConf.t
}.

Definition get_conf_by_slug (self : t) (slug' : string) : option Conf :=
  List.find (λ conf, String.eqb (slug conf) slug') (config self).

Definition get_tracking_info (self : t) (slug' : string)
    : option (list (string * pyobj)) :=
  (fix loop (confs : list Conf) :=
     match confs with
     | [] => None
     | conf :: confs =>
         if String.eqb (slug conf) slug' then
           Some [("lang", PyList (PyStr <$> lang conf));
                 ("keywords", PyList (PyStr <$> keywords conf));
                 ("slug", PyStr (slug conf))]
         else loop confs
     end) (config self).

(** [for conf in raw: config.append(dacite.from_dict(...))] *)
Fixpoint for_conf (raw : list pyobj) (config : list Conf) : result (list Conf) :=
  match raw with
  | [] => Return config
  | conf :: raw =>
      c ← dacite.from_dict conf;
      for_conf raw (config ++ [c])
  end.

(** [max([int(key.replace('_', '')) for key in raw])] *)
Definition latest_version (raw : pyobj) : result Z :=
  keys ← py_iter raw;
  versions ← mapM (λ key, py_replace_underscores key ≫= Int.parse) keys;
  Int.max versions.

(** [_load], from the parsed document on (lines 114 to 121). *)
Definition load_document (raw : pyobj) : result (list Conf) :=
  latest_version ← latest_version raw;
  raw ← py_getitem raw ("_" +:+ Int.str latest_version);
  raw ← py_iter raw;
  for_conf raw [].

(** The body of [for conf in self.config] in [_pool_config]. *)
Definition pool (filter_conf : FilterConf.t) (conf : Conf) : FilterConf.t :=
  FilterConf.mk
    (FilterConf.keywords filter_conf ∪ list_to_set (keywords conf))
    (FilterConf.lang filter_conf ∪ list_to_set (lang conf)).

Definition _pool_config (config : list Conf) : FilterConf.t :=
  foldl pool (FilterConf.mk ∅ ∅) config.

(** The input serialization [_load] asks for. *)
Definition DOCUMENT : pyobj :=
  PyDict [("CompressionType", PyStr "NONE");
          ("JSON", PyDict [("Type", PyStr "DOCUMENT")])].

Section Load.

(** [json.loads], and the bucket and key of [env.AWSEnv]. *)
Variable json_loads : string → result pyobj.
Variables BUCKET_NAME CONFIG_S3_KEY : string.

Definition _load (fuel : nat) (client : s3_client) (w : world)
    : option (result (list Conf) * world) :=
  '(r, w') ← get_s3_object fuel client BUCKET_NAME CONFIG_S3_KEY
               DOCUMENT w;
  Some (text ← r; raw ← json_loads text; load_document raw, w').

Definition __init__ (fuel : nat) (client : s3_client) (w : world)
    : option (result t * world) :=
  '(r, w') ← _load fuel client w;
  Some (config ← r; Return (mk config (_pool_config config)), w').

End Load.

Section Write.

Variable encoder : string → string.
Variable floatstr : N → string.
(** Whether [open(path, 'w')] succeeds. *)
Variable writable : string → bool.

(** [write]: the files are a map from paths to contents.  The file
    is truncated when it is opened and holds what [json.dump] wrote,
    also when [json.dump] raised. *)
Definition write (self : t) (path : string) (fs : gmap string string)
    : result () * gmap string string :=
  if writable path then
    let '(text, exc) := json.dump encoder floatstr
                          (PyList (asdict <$> config self)) in
    (match exc with Some e => Raise e | None => Return () end,
     <[path := text]> fs)
  else (Raise OSError, fs).

End Write.

End ConfigManager.

(** ** Vocabulary of the statements *)

(** A parser known by its graph on finitely many texts, to run the
    manager on examples. *)
Definition loads_of (table : list (string * pyobj)) : string → result pyobj :=
  λ text,
    match dict_get table text with
    | Some o => Return o
    | None => Raise (OtherError "JSONDecodeError")
    end.

(** A record whose [storage_mode] or [image_storage_mode] is a string
    that names no member of the enumeration. *)
Definition unknown_enum (record : pyobj) : Prop :=
  ∃ data s, record = PyDict data ∧
    ((dict_get data "storage_mode" = Some (PyStr s) ∧
      ∀ m, StorageMode_name m ≠ s) ∨
     (dict_get data "image_storage_mode" = Some (PyStr s) ∧
      ∀ m, ImageStorageMode_name m ≠ s)).

(** The JSON literal of a string that has no character to escape. *)
Definition dq (s : string) : string :=
  String "034" (s +:+ String "034" EmptyString).

(** The text of a document, as [json.dump] lays it out. *)
Definition text_of (o : pyobj) : string :=
  (json.dump dq (λ _, "0.0") o).1.

(** A store that holds the text of [o] and a parser that knows it. *)
Definition store_of (o : pyobj) : s3_client :=
  scripted [Response [RecordsEvent (list_byte_of_string (text_of o)); EndEvent]]
    (Fails (StoreFault "exhausted")).

Definition loads_text_of (o : pyobj) : string → result pyobj :=
  loads_of [(text_of o, o)].

(** A well-formed record and the configuration it decodes to. *)
Definition record_of (slug' keyword : string) : pyobj :=
  PyDict [("keywords", PyList [PyStr keyword]);
          ("lang", PyList [PyStr "en"]);
          ("locales", PyList []);
          ("slug", PyStr slug');
          ("storage_mode", PyStr "S3_ES");
          ("image_storage_mode", PyStr "ACTIVE");
          ("model_endpoints", PyNone)].

Definition conf_of (slug' keyword : string) : Conf :=
  mkConf [keyword] ["en"] [] slug' S3_ES ACTIVE None.

(** The document of the specification with three versions, out of
    order. *)
Definition document_132 : pyobj :=
  PyDict [("_1", PyList [record_of "a" "x"]);
          ("_3", PyList [record_of "b" "y"]);
          ("_2", PyList [record_of "c" "z"])].

(** A record whose storage mode names no member. *)
Definition record_S3 : pyobj :=
  PyDict [("keywords", PyList [PyStr "x"]);
          ("lang", PyList [PyStr "en"]);
          ("locales", PyList []);
          ("slug", PyStr "bad");
          ("storage_mode", PyStr "S3");
          ("image_storage_mode", PyStr "ACTIVE")].

Definition document_S3 : pyobj :=
  PyDict [("_1", PyList [record_of "a" "x"; record_S3])].

(** Documents whose only key is not in the form [load] rebuilds. *)
Definition document_01 : pyobj := PyDict [("_01", PyList [record_of "a" "x"])].
Definition document_1_0 : pyobj := PyDict [("_1_0", PyList [record_of "a" "x"])].

(** A store that answers two requests with [NoSuchKey], then with a
    response that has a data fragment and no end marker, then with a
    complete response. *)
Definition store_truncated : s3_client :=
  scripted [Fails (ClientError "NoSuchKey" "The specified key does not exist.");
            Fails (ClientError "NoSuchKey" "The specified key does not exist.");
            Response [RecordsEvent [x61; x62]];
            Response [RecordsEvent [x63; x64]; EndEvent]]
    (Fails (StoreFault "exhausted")).

(** A store that answers two requests with [NoSuchKey], then with a
    complete response. *)
Definition store_late : s3_client :=
  scripted [Fails (ClientError "NoSuchKey" "The specified key does not exist.");
            Fails (ClientError "NoSuchKey" "The specified key does not exist.");
            Response [RecordsEvent [x61; x62]; EndEvent]]
    (Fails (StoreFault "exhausted")).

(** A store that denies access. *)
Definition store_denied : s3_client :=
  scripted [] (Fails (ClientError "AccessDenied" "Access Denied")).

(** The fragments of the responses to the [n] requests from the [a]-th
    on, in the order of the requests. *)
Fixpoint received (client : s3_client) (req : select_request) (a n : nat)
    : list byte :=
  match n with
  | O => []
  | S n =>
      match client a req with
      | Response payload => fragments payload
      | Fails _ => []
      end ++ received client req (S a) n
  end.

(** The log lines of the [n] requests from the [a]-th on: one for each
    that raised [NoSuchKey]. *)
Fixpoint retry_log (client : s3_client) (req : select_request) (a n : nat)
    : list log_record :=
  match n with
  | O => []
  | S n =>
      match client a req with
      | Fails (ClientError code message) =>
          if String.eqb code "NoSuchKey"
          then [LogError code message (Key req)] else []
      | _ => []
      end ++ retry_log client req (S a) n
  end.

(** A store where the key never appears. *)
Definition store_missing : s3_client :=
  scripted [] (Fails (ClientError "NoSuchKey" "The specified key does not exist.")).

(** A store whose response has a fragment after the end marker. *)
Definition store_trailing : s3_client :=
  scripted [Response [RecordsEvent [x61]; EndEvent; RecordsEvent [x62]]]
    (Fails (StoreFault "exhausted")).

(** The record of the stored document for a configuration: its fields
    under their names, the enum members as their names. *)
Definition to_record (conf : Conf) : pyobj :=
  PyDict [
    ("keywords", PyList (PyStr <$> keywords conf));
    ("lang", PyList (PyStr <$> lang conf));
    ("locales", PyList (PyStr <$> locales conf));
    ("slug", PyStr (slug conf));
    ("storage_mode", PyStr (StorageMode_name (storage_mode conf)));
    ("image_storage_mode",
      PyStr (ImageStorageMode_name (image_storage_mode conf)));
    ("model_endpoints",
      match model_endpoints conf with
      | None => PyNone
      | Some d => PyDict (prod_map id PyStr <$> d)
      end)
  ].

(** The names of the fields of [Conf], in the order of the class, and
    those that have to be present. *)
Definition field_names : list string :=
  ["keywords"; "lang"; "locales"; "slug"; "storage_mode";
   "image_storage_mode"; "model_endpoints"].

Definition required_names : list string :=
  ["keywords"; "lang"; "locales"; "slug"; "storage_mode";
   "image_storage_mode"].

(** A configuration with model endpoints. *)
Definition conf_endpoints : Conf :=
  mkConf ["flu"; "cold"] ["en"; "fr"] ["CH"] "health" S3_ES_NO_RETWEETS
    INACTIVE (Some [("sentiment", "endpoint-1")]).

(** The version a key stands for: [int(key.replace('_', ''))]. *)
Definition version_of (key : string) : result Z :=
  Int.parse (Str.replace "_" "" key).

(** The document of the specification, its versions in another order. *)
Definition document_321 : list (string * pyobj) :=
  [("_3", PyList [record_of "b" "y"]);
   ("_2", PyList [record_of "c" "z"]);
   ("_1", PyList [record_of "a" "x"])].

(** A string of ASCII characters. *)
Fixpoint ascii_only (s : string) : bool :=
  match s with
  | EmptyString => true
  | String c s' => (N_of_ascii c <? 128)%N && ascii_only s'
  end.

(** A document with a key that is not a version label. *)
Definition document_latest : list (string * pyobj) :=
  [("_1", PyList [record_of "a" "x"]);
   ("latest", PyList [record_of "b" "y"])].

(** A manager with two projects. *)
Definition manager_two : ConfigManager.t :=
  ConfigManager.mk [conf_of "p1" "a"; conf_endpoints]
    (ConfigManager._pool_config [conf_of "p1" "a"; conf_endpoints]).

(** Two outcomes the fetcher cannot tell apart: the same exception, or
    two responses with the same fragment bytes and both with, or both
    without, an end marker. *)
Definition alike (o o' : outcome) : Prop :=
  match o, o' with
  | Fails e, Fails e' => e = e'
  | Response p, Response p' =>
      fragments p = fragments p' ∧ has_End p = has_End p'
  | _, _ => False
  end.

(** The two bytes of a two-byte character, in two fragments, and in one
    with a statistics event after it. *)
Definition store_split : s3_client :=
  scripted [Response [RecordsEvent [xc3]; RecordsEvent [xa9]; EndEvent]]
    (Fails (StoreFault "exhausted")).

Definition store_whole : s3_client :=
  scripted [Response [RecordsEvent [xc3; xa9]; StatsEvent; EndEvent]]
    (Fails (StoreFault "exhausted")).

(** * Properties *)

(** ** The error monad *)

Lemma bind_Return {A B} (f : A → result B) (a : A) : Return a ≫= f = f a.
Proof. reflexivity. Qed.

Lemma bind_Raise {A B} (f : A → result B) (e : exn) : Raise e ≫= f = Raise e.
Proof. reflexivity. Qed.

(** ** The object fetcher *)

Section Fetcher.

Variable client : s3_client.
Variable req : select_request.

Lemma for_events_spec payload repeat records :
  for_events payload (repeat, records) =
    (repeat && negb (has_End payload), records ++ fragments payload).
Proof.
  unfold for_events, has_End, fragments.
  revert repeat records.
  induction payload as [|[e r] payload IH]; intros repeat records; simpl.
  - by rewrite andb_true_r, app_nil_r.
  - rewrite IH. destruct e, r; simpl;
      rewrite ?andb_false_r, ?andb_true_r, ?app_assoc; done.
Qed.

Lemma while_repeat_ended fuel records w payload :
  client (requests w) req = Response payload →
  has_End payload = true →
  while_repeat (S fuel) client req records w =
    Some (Return (records ++ fragments payload),
          World (S (requests w)) (log w)).
Proof.
  intros Hc Hend. simpl. rewrite Hc, for_events_spec, Hend. done.
Qed.

Lemma while_repeat_reissue fuel records w payload :
  client (requests w) req = Response payload →
  has_End payload = false →
  while_repeat (S fuel) client req records w =
    while_repeat fuel client req (records ++ fragments payload)
      (World (S (requests w)) (log w)).
Proof.
  intros Hc Hend. simpl. rewrite Hc, for_events_spec, Hend. done.
Qed.

Lemma while_repeat_NoSuchKey fuel records w message :
  client (requests w) req = Fails (ClientError "NoSuchKey" message) →
  while_repeat (S fuel) client req records w =
    while_repeat fuel client req records
      (World (S (requests w))
         (log w ++ [LogError "NoSuchKey" message (Key req)])).
Proof. intros Hc. simpl. by rewrite Hc. Qed.

Lemma while_repeat_fatal fuel records w exc :
  client (requests w) req = Fails exc →
  fatal exc →
  while_repeat (S fuel) client req records w =
    Some (Raise exc, World (S (requests w)) (log w)).
Proof.
  intros Hc Hf. simpl. rewrite Hc.
  destruct exc as [code message| | | | | | | | |]; try done.
  destruct (String.eqb_spec code "NoSuchKey") as [->|]; [|done].
  by destruct (Hf message).
Qed.

(** The loop returns only from an iteration whose response held an end
    marker. *)
Lemma while_repeat_Return fuel records w out w' :
  while_repeat fuel client req records w = Some (Return out, w') →
  ∃ n payload,
    requests w' = S n ∧ (requests w ≤ n)%nat ∧
    client n req = Response payload ∧ has_End payload = true.
Proof.
  revert records w.
  induction fuel as [|fuel IH]; intros records w; simpl; [done|].
  destruct (client (requests w) req) as [payload|exc] eqn:Hc.
  - rewrite for_events_spec. simpl.
    destruct (has_End payload) eqn:Hend; simpl.
    + intros [= <- <-]. exists (requests w), payload. simpl. eauto.
    + intros H. apply IH in H as (n & p & ? & ? & ? & ?).
      exists n, p. simpl in *. split_and!; [done|lia|done|done].
  - destruct exc as [code message| | | | | | | | |]; try done.
    destruct (String.eqb code "NoSuchKey"); [|done].
    intros H. apply IH in H as (n & p & ? & ? & ? & ?).
    exists n, p. simpl in *. split_and!; [done|lia|done|done].
Qed.

(** More fuel does not change a result. *)
Lemma while_repeat_fuel fuel fuel' records w x :
  while_repeat fuel client req records w = Some x →
  (fuel ≤ fuel')%nat →
  while_repeat fuel' client req records w = Some x.
Proof.
  revert fuel' records w.
  induction fuel as [|fuel IH]; intros fuel' records w; simpl; [done|].
  intros H Hle. destruct fuel' as [|fuel']; [lia|]. simpl.
  destruct (client (requests w) req) as [payload|exc].
  - destruct (for_events payload (true, records)) as [[] records'];
      [apply IH; [done|lia] | done].
  - destruct exc as [code message| | | | | | | | |]; try done.
    destruct (String.eqb code "NoSuchKey"); [apply IH; [done|lia] | done].
Qed.

End Fetcher.

Lemma fragments_app p q : fragments (p ++ q) = fragments p ++ fragments q.
Proof. unfold fragments. by rewrite omap_app, concat_app. Qed.

Lemma fragments_RecordsEvent frags :
  fragments (RecordsEvent <$> frags) = concat frags.
Proof.
  unfold fragments. induction frags as [|f frags IH]; csimpl; [done|].
  by f_equal.
Qed.

Lemma has_End_app p q : has_End (p ++ q) = has_End p || has_End q.
Proof. apply existsb_app. Qed.

Lemma get_s3_object_ended client bucket key ser w payload fuel :
  client (requests w) (select_all bucket key ser) = Response payload →
  has_End payload = true →
  get_s3_object (S fuel) client bucket key ser w =
    Some (Utf8.decode (fragments payload), World (S (requests w)) (log w)).
Proof.
  intros Hc Hend. unfold get_s3_object.
  by rewrite (while_repeat_ended _ _ _ _ _ _ Hc Hend).
Qed.

(** C8: when the response stream is a sequence of data fragments followed
    by the end marker, the fetcher returns the UTF-8 decoding of the
    concatenation, in stream order, of the payloads of the fragments (and
    raises what the decoding raises when they are not UTF-8), after this
    one request. *)
Theorem get_s3_object_concatenates client bucket key ser w
    (frags : list (list byte)) fuel :
  client (requests w) (select_all bucket key ser) =
    Response ((RecordsEvent <$> frags) ++ [EndEvent]) →
  get_s3_object (S fuel) client bucket key ser w =
    Some (Utf8.decode (concat frags), World (S (requests w)) (log w)).
Proof.
  intros Hc.
  rewrite (get_s3_object_ended _ _ _ _ _ _ _ Hc).
  - by rewrite fragments_app, fragments_RecordsEvent, app_nil_r.
  - rewrite has_End_app. apply orb_true_r.
Qed.

Lemma get_s3_object_concatenates_witness :
  get_s3_object 1
    (scripted [Response ((RecordsEvent <$> [[x7b]; [x7d; x0a]]) ++ [EndEvent])]
       (Fails (StoreFault "exhausted")))
    "bucket" "key" PyNone world0 =
  Some (Return (String "{" (String "}" (String "010" EmptyString))), World 1 []).
Proof.
  exact (get_s3_object_concatenates
           (scripted [Response ((RecordsEvent <$> [[x7b]; [x7d; x0a]]) ++ [EndEvent])]
              (Fails (StoreFault "exhausted")))
           "bucket" "key" PyNone world0 [[x7b]; [x7d; x0a]] 0 eq_refl).
Defined.

(** C9: a response whose stream is used up without an end marker makes
    the loop issue the request again, with the fragments read so far kept
    in the accumulator, so that the fragments of the next response come
    after them; and the loop returns only from an iteration whose
    response held an end marker. *)
Theorem while_repeat_until_End client req :
  (∀ fuel records w payload,
     client (requests w) req = Response payload →
     has_End payload = false →
     while_repeat (S fuel) client req records w =
       while_repeat fuel client req (records ++ fragments payload)
         (World (S (requests w)) (log w))) ∧
  (∀ fuel records w payload payload',
     client (requests w) req = Response payload →
     has_End payload = false →
     client (S (requests w)) req = Response payload' →
     has_End payload' = true →
     while_repeat (S (S fuel)) client req records w =
       Some (Return (records ++ fragments payload ++ fragments payload'),
             World (S (S (requests w))) (log w))) ∧
  (∀ fuel records w out w',
     while_repeat fuel client req records w = Some (Return out, w') →
     ∃ n payload,
       requests w' = S n ∧ (requests w ≤ n)%nat ∧
       client n req = Response payload ∧ has_End payload = true).
Proof.
  split_and!.
  - intros. by apply while_repeat_reissue.
  - intros fuel records w payload payload' Hc Hend Hc' Hend'.
    rewrite (while_repeat_reissue _ _ _ _ _ _ Hc Hend).
    rewrite (while_repeat_ended _ _ _ _ _ payload'); [|done..].
    by rewrite <-app_assoc.
  - intros. by eapply while_repeat_Return.
Qed.

Lemma while_repeat_until_End_witness :
  let client := scripted [Response [RecordsEvent [x61; x62]];
                          Response [RecordsEvent [x63]; EndEvent]]
                  (Fails (StoreFault "exhausted")) in
  let req := select_all "bucket" "key" PyNone in
  while_repeat 2 client req [] world0 =
    while_repeat 1 client req [x61; x62] (World 1 []) ∧
  while_repeat 2 client req [] world0 =
    Some (Return [x61; x62; x63], World 2 []) ∧
  ∃ n payload,
    2%nat = S n ∧ (0 ≤ n)%nat ∧
    client n req = Response payload ∧ has_End payload = true.
Proof.
  intros client req.
  destruct (while_repeat_until_End client req) as (H1 & H2 & H3).
  split_and!.
  - exact (H1 1%nat [] world0 [RecordsEvent [x61; x62]] eq_refl eq_refl).
  - exact (H2 0%nat [] world0 [RecordsEvent [x61; x62]]
             [RecordsEvent [x63]; EndEvent] eq_refl eq_refl eq_refl eq_refl).
  - exact (H3 2%nat [] world0 [x61; x62; x63] (World 2 []) eq_refl).
Defined.

(** ** Integers and their decimal form *)

Lemma append_empty_l (s : string) : "" +:+ s = s.
Proof. reflexivity. Qed.

Lemma digit_of_plain c d :
  Int.digit_of c = Some d →
  Int.is_space c = false ∧ Ascii.eqb c "-" = false ∧
  Ascii.eqb c "+" = false ∧ Ascii.eqb c "_" = false.
Proof.
  destruct c as [[] [] [] [] [] [] [] []]; vm_compute; intros; by simplify_eq.
Qed.

Lemma digit_of_pretty_N_char (d : N) :
  (d < 10)%N → Int.digit_of (pretty_N_char d) = Some (Z.of_N d).
Proof.
  intros Hd.
  assert (d = 0 ∨ d = 1 ∨ d = 2 ∨ d = 3 ∨ d = 4 ∨ d = 5 ∨ d = 6 ∨ d = 7
          ∨ d = 8 ∨ d = 9)%N as H by lia.
  repeat (destruct H as [->|H]; [done|]). by subst.
Qed.

Lemma numeral_pretty_N_go (x : N) s :
  Int.numeral s = true → Int.numeral (pretty_N_go x s) = true.
Proof.
  revert s. induction (N.lt_wf_0 x) as [x _ IH]; intros s Hs.
  assert (x = 0 ∨ 0 < x)%N as [->|Hx] by lia; [done|].
  rewrite pretty_N_go_step by done.
  apply IH; [by apply N.div_lt|]. simpl.
  rewrite digit_of_pretty_N_char by (by apply N.mod_lt). simpl. done.
Qed.

Lemma digits_pretty_N_go (x : N) s prev :
  (0 < x)%N →
  Int.digits prev (pretty_N_go x s) 0 = Int.digits true s (Z.of_N x).
Proof.
  revert s prev. induction (N.lt_wf_0 x) as [x _ IH]; intros s prev Hx.
  rewrite pretty_N_go_step by done.
  assert (Hd : (x `mod` 10 < 10)%N) by (by apply N.mod_lt).
  assert (Hx10 : Z.of_N x = 10 * Z.of_N (x `div` 10) + Z.of_N (x `mod` 10)).
  { rewrite (N.div_mod x 10) at 1 by done. lia. }
  assert (x `div` 10 = 0 ∨ 0 < x `div` 10)%N as [H0|Hpos] by lia.
  - rewrite H0 in *. rewrite pretty_N_go_0. simpl.
    rewrite digit_of_pretty_N_char by done. by rewrite Hx10.
  - rewrite IH; [|by apply N.div_lt|done]. simpl.
    rewrite digit_of_pretty_N_char by done. by rewrite Hx10.
Qed.

Lemma pretty_N_go_nonempty (x : N) s :
  (0 < x)%N → pretty_N_go x s ≠ "".
Proof.
  revert s. induction (N.lt_wf_0 x) as [x _ IH]; intros s Hx.
  rewrite pretty_N_go_step by done.
  destruct (N.eq_0_gt_0_cases (x `div` 10)) as [->|Hpos].
  - by rewrite pretty_N_go_0.
  - apply IH; [by apply N.div_lt|done].
Qed.

Lemma replace_numeral s :
  Int.numeral s = true → Str.replace "_" "" s = s.
Proof.
  induction s as [|c s IH]; simpl; [done|].
  intros [Hc Hs]%andb_true_iff.
  apply bool_decide_eq_true in Hc as [d Hd].
  destruct (digit_of_plain _ _ Hd) as (_ & _ & _ & ->).
  by rewrite IH.
Qed.

(** What [str] prints, [int] reads back. *)
Lemma parse_str (n : Z) : Int.parse (Int.str n) = Return n.
Proof.
  assert (Hpos : ∀ p : positive,
            ∃ c s, pretty_N_go (N.pos p) "" = String c s ∧
                   is_Some (Int.digit_of c)).
  { intros p.
    pose proof (numeral_pretty_N_go (N.pos p) "" eq_refl) as Hnum.
    pose proof (pretty_N_go_nonempty (N.pos p) "" eq_refl) as Hne.
    destruct (pretty_N_go (N.pos p) "") as [|c s]; [done|].
    simpl in Hnum. apply andb_true_iff in Hnum as [Hc _].
    apply bool_decide_eq_true in Hc. eauto. }
  unfold Int.str, pretty, pretty_Z. destruct n as [|p|p].
  - done.
  - unfold pretty, pretty_positive, pretty, pretty_N. simpl.
    destruct (Hpos p) as (c & s & Heq & [d Hd]).
    destruct (digit_of_plain _ _ Hd) as (Hsp & Hm & Hp & _).
    unfold Int.parse. rewrite Heq. simpl. rewrite Hsp. simpl.
    rewrite Hm, Hp. rewrite <-Heq.
    by rewrite digits_pretty_N_go.
  - unfold pretty, pretty_positive, pretty, pretty_N. simpl.
    unfold Int.parse. simpl. rewrite append_empty_l.
    by rewrite digits_pretty_N_go.
Qed.

Lemma replace_str (n : Z) : Str.replace "_" "" (Int.str n) = Int.str n.
Proof.
  unfold Int.str, pretty, pretty_Z. destruct n as [|p|p].
  - done.
  - unfold pretty, pretty_positive, pretty, pretty_N. simpl.
    apply replace_numeral. by apply numeral_pretty_N_go.
  - unfold pretty, pretty_positive, pretty, pretty_N. simpl.
    f_equal. apply replace_numeral. by apply numeral_pretty_N_go.
Qed.

(** The version a label stands for is the integer it was made from. *)
Lemma parse_version_label (n : Z) :
  Int.parse (Str.replace "_" "" (version_label n)) = Return n.
Proof.
  unfold version_label.
  change (Str.replace "_" "" ("_" +:+ Int.str n))
    with (Str.replace "_" "" (Int.str n)).
  rewrite replace_str. apply parse_str.
Qed.

(** ** Loading *)

Lemma foldl_max_le (N x : Z) l :
  x ≤ N → Forall (λ y, y ≤ N) l → foldl Z.max x l ≤ N.
Proof.
  intros Hx Hl. revert x Hx.
  induction Hl as [|y l Hy _ IH]; intros x Hx; simpl; [done|].
  apply IH. lia.
Qed.

Lemma foldl_max_ge (x : Z) l :
  x ≤ foldl Z.max x l ∧ Forall (λ y, y ≤ foldl Z.max x l) l.
Proof.
  revert x. induction l as [|y l IH]; intros x; simpl; [done|].
  destruct (IH (x `max` y)) as [H1 H2].
  split; [lia|]. constructor; [lia|done].
Qed.

Lemma max_greatest (N : Z) l :
  N ∈ l → Forall (λ y, y ≤ N) l → Int.max l = Return N.
Proof.
  destruct l as [|x l]; [by intros ?%elem_of_nil|].
  intros Hin Hle. simpl. f_equal.
  apply Forall_cons in Hle as [Hx Hl].
  pose proof (foldl_max_le N x l Hx Hl).
  destruct (foldl_max_ge x l) as [H1 H2].
  apply elem_of_cons in Hin as [->|Hin]; [lia|].
  rewrite Forall_forall in H2. specialize (H2 _ Hin). lia.
Qed.

Lemma mapM_cons {A B} (f : A → result B) x l :
  mapM f (x :: l) = y ← f x; k ← mapM f l; Return (y :: k).
Proof. reflexivity. Qed.

Lemma version_of_label (n : Z) :
  py_replace_underscores (PyStr (version_label n)) ≫= Int.parse = Return n.
Proof. apply parse_version_label. Qed.

Lemma mapM_versions (N : Z) (keys : list string) :
  Forall (λ k, ∃ n, k = version_label n ∧ n ≤ N) keys →
  ∃ versions,
    mapM (λ key, py_replace_underscores key ≫= Int.parse) (PyStr <$> keys)
      = Return versions ∧
    Forall (λ y, y ≤ N) versions ∧
    ∀ n, version_label n ∈ keys → n ∈ versions.
Proof.
  induction 1 as [|k keys (n & -> & Hn) _ (versions & Hm & Hle & Hin)].
  - exists []. split_and!; [done|done|]. by intros n ?%elem_of_nil.
  - exists (n :: versions). split_and!.
    + rewrite fmap_cons, mapM_cons, version_of_label. simpl.
      rewrite Hm. done.
    + by constructor.
    + intros n' [Heq|H]%elem_of_cons; [|right; by apply Hin].
      assert (Return n' = Return n) as [= ->]; [|left].
      by rewrite <-!parse_version_label, Heq.
Qed.

Lemma dict_get_keys {V} (d : list (string * V)) k v :
  dict_get d k = Some v → k ∈ dict_keys d.
Proof.
  unfold dict_keys. induction d as [|[k' v'] d IH]; simpl; [done|].
  destruct (String.eqb_spec k' k) as [->|]; [left|right; auto].
Qed.

(** In a document whose keys are version labels, the latest version is
    the largest of their integers. *)
Lemma latest_version_labels doc (N : Z) :
  Forall (λ k, ∃ n, k = version_label n ∧ n ≤ N) (dict_keys doc) →
  version_label N ∈ dict_keys doc →
  ConfigManager.latest_version (PyDict doc) = Return N.
Proof.
  intros Hkeys HN.
  destruct (mapM_versions N _ Hkeys) as (versions & Hm & Hle & Hin).
  unfold ConfigManager.latest_version.
  change (py_iter (PyDict doc)) with (Return (PyStr <$> dict_keys doc)).
  rewrite bind_Return, Hm, bind_Return.
  apply max_greatest; auto.
Qed.

Lemma for_conf_mapM raw config :
  ConfigManager.for_conf raw config =
    (config ++.) <$> mapM dacite.from_dict raw.
Proof.
  revert config. induction raw as [|r raw IH]; intros config; csimpl.
  - by rewrite app_nil_r.
  - destruct (dacite.from_dict r) as [c|e]; csimpl; [|done].
    rewrite IH. destruct (mapM dacite.from_dict raw); csimpl; [|done].
    by rewrite <-app_assoc.
Qed.

Lemma for_conf_nil raw :
  ConfigManager.for_conf raw [] = mapM dacite.from_dict raw.
Proof. rewrite for_conf_mapM. by destruct (mapM dacite.from_dict raw). Qed.

Lemma mapM_Return_Forall2 {A B} (f : A → result B) l k :
  mapM f l = Return k ↔ Forall2 (λ x y, f x = Return y) l k.
Proof.
  split.
  - revert k. induction l as [|x l IH]; intros k; csimpl.
    + intros [= <-]. constructor.
    + destruct (f x) as [y|] eqn:Hx; csimpl; [|done].
      destruct (mapM f l) as [k'|]; csimpl; [|done].
      intros [= <-]. constructor; auto.
  - induction 1 as [|x y l k Hx _ IH]; [done|].
    by rewrite mapM_cons, Hx, bind_Return, IH.
Qed.

Lemma load_document_array raw (N : Z) records :
  ConfigManager.latest_version raw = Return N →
  py_getitem raw (version_label N) = Return (PyList records) →
  ConfigManager.load_document raw = mapM dacite.from_dict records.
Proof.
  intros HN Hget. unfold ConfigManager.load_document.
  rewrite HN. csimpl. fold (version_label N). rewrite Hget. csimpl.
  apply for_conf_nil.
Qed.

Section Loaded.

Variable json_loads : string → result pyobj.
Variables BUCKET_NAME CONFIG_S3_KEY : string.

Lemma _load_parsed fuel client w w' text raw :
  get_s3_object fuel client BUCKET_NAME CONFIG_S3_KEY
    ConfigManager.DOCUMENT w = Some (Return text, w') →
  json_loads text = Return raw →
  ConfigManager._load json_loads BUCKET_NAME CONFIG_S3_KEY fuel client w
    = Some (ConfigManager.load_document raw, w').
Proof.
  intros Hget Hloads. unfold ConfigManager._load.
  rewrite Hget. csimpl. by rewrite Hloads.
Qed.

Lemma __init___loaded fuel client w w' r :
  ConfigManager._load json_loads BUCKET_NAME CONFIG_S3_KEY fuel client w
    = Some (r, w') →
  ConfigManager.__init__ json_loads BUCKET_NAME CONFIG_S3_KEY fuel client w
    = Some (config ← r;
            Return (ConfigManager.mk config
                      (ConfigManager._pool_config config)), w').
Proof. intros H. unfold ConfigManager.__init__. by rewrite H. Qed.

End Loaded.

(** ** Decoding *)

Lemma required_Raise {A} data name (build : pyobj → option A) fault e :
  dacite.required data name build fault = Raise e →
  ∃ cause, e = MalformedConfig name cause.
Proof.
  unfold dacite.required. repeat case_match; intros [= <-]; eauto.
Qed.

Lemma optional_Raise {A} data name (build : pyobj → option A) e :
  dacite.optional data name build = Raise e →
  ∃ cause, e = MalformedConfig name cause.
Proof.
  unfold dacite.optional. repeat case_match; intros [= <-]; eauto.
Qed.

Lemma required_rejected {A} data name (build : pyobj → option A) fault v :
  dict_get data name = Some v → build v = None →
  dacite.required data name build fault = Raise (MalformedConfig name fault).
Proof. intros Hget Hb. unfold dacite.required. by rewrite Hget, Hb. Qed.

Ltac field_cases :=
  match goal with
  | |- context [dacite.required ?d ?n ?b ?f ≫= _] =>
      let H := fresh "H" in
      destruct (dacite.required d n b f) eqn:H;
      [rewrite bind_Return
      |rewrite bind_Raise; apply required_Raise in H as [? ->]]
  | |- context [dacite.optional ?d ?n ?b ≫= _] =>
      let H := fresh "H" in
      destruct (dacite.optional d n b) eqn:H;
      [rewrite bind_Return
      |rewrite bind_Raise; apply optional_Raise in H as [? ->]]
  end.

(** Every failure of the decoder is a malformed configuration. *)
Lemma from_dict_Raise record e :
  dacite.from_dict record = Raise e →
  ∃ field cause, e = MalformedConfig field cause.
Proof.
  destruct record; unfold dacite.from_dict; try (intros [= <-]; eauto).
  repeat (field_cases; [|intros [= <-]; eauto]). intros [=].
Qed.

Lemma converter_StorageMode_unknown s :
  (∀ m, StorageMode_name m ≠ s) → converter.StorageMode (PyStr s) = None.
Proof.
  intros H. cbv [converter.StorageMode List.find].
  repeat (case String.eqb_spec; [intros Heq; by destruct (H _ Heq)|intros _]).
  done.
Qed.

Lemma converter_ImageStorageMode_unknown s :
  (∀ m, ImageStorageMode_name m ≠ s) →
  converter.ImageStorageMode (PyStr s) = None.
Proof.
  intros H. cbv [converter.ImageStorageMode List.find].
  repeat (case String.eqb_spec; [intros Heq; by destruct (H _ Heq)|intros _]).
  done.
Qed.

Lemma from_dict_unknown_enum record :
  unknown_enum record →
  ∃ field cause, dacite.from_dict record = Raise (MalformedConfig field cause).
Proof.
  intros (data & s & -> & H). unfold dacite.from_dict.
  do 4 (field_cases; [|eauto]).
  destruct H as [[Hget Hs]|[Hget Hs]].
  - rewrite (required_rejected _ _ _ _ _ Hget)
      by (by apply converter_StorageMode_unknown).
    eauto.
  - field_cases; [|eauto].
    rewrite (required_rejected _ _ _ _ _ Hget)
      by (by apply converter_ImageStorageMode_unknown).
    eauto.
Qed.

Lemma mapM_from_dict_Raise records e :
  mapM dacite.from_dict records = Raise e →
  ∃ field cause, e = MalformedConfig field cause.
Proof.
  induction records as [|r records IH]; [done|].
  rewrite mapM_cons.
  destruct (dacite.from_dict r) eqn:Hr.
  - rewrite bind_Return. destruct (mapM dacite.from_dict records); [done|].
    rewrite bind_Raise. intros [= <-]. by apply IH.
  - rewrite bind_Raise. intros [= <-]. by eapply from_dict_Raise.
Qed.

(** One record with an unknown enum name makes the decoding of the whole
    array fail. *)
Lemma mapM_from_dict_unknown_enum records bad :
  bad ∈ records → unknown_enum bad →
  ∃ field cause,
    mapM dacite.from_dict records = Raise (MalformedConfig field cause).
Proof.
  intros Hin Hbad.
  destruct (mapM dacite.from_dict records) as [confs|e] eqn:Hm.
  - apply mapM_Return_Forall2 in Hm.
    apply list_elem_of_lookup in Hin as [i Hi].
    destruct (Forall2_lookup_l _ _ _ _ _ Hm Hi) as (c & _ & Hc).
    destruct (from_dict_unknown_enum _ Hbad) as (f & cause & Hf).
    congruence.
  - apply mapM_from_dict_Raise in Hm as (f & c & ->). eauto.
Qed.

(** ** The manager *)

Section Manager.

Variable json_loads : string → result pyobj.
Variables BUCKET_NAME CONFIG_S3_KEY : string.

Abbreviation _load := (ConfigManager._load json_loads BUCKET_NAME CONFIG_S3_KEY).
Abbreviation __init__ :=
  (ConfigManager.__init__ json_loads BUCKET_NAME CONFIG_S3_KEY).
Abbreviation fetch :=
  (λ fuel client w,
     get_s3_object fuel client BUCKET_NAME CONFIG_S3_KEY
       ConfigManager.DOCUMENT w).

(** C1: when the keys of the stored document are version labels, [_load]
    decodes the array under the label of the largest integer, and
    nothing else: its result is the decoding, record by record and in
    order, of that array, and it is the list of the decoded records
    when each of them decodes. *)
Theorem _load_latest_version fuel client w w' text doc (N : Z) records :
  fetch fuel client w = Some (Return text, w') →
  json_loads text = Return (PyDict doc) →
  Forall (λ k, ∃ n, k = version_label n ∧ n ≤ N) (dict_keys doc) →
  dict_get doc (version_label N) = Some (PyList records) →
  _load fuel client w = Some (mapM dacite.from_dict records, w') ∧
  ∀ confs,
    Forall2 (λ record conf, dacite.from_dict record = Return conf)
      records confs →
    _load fuel client w = Some (Return confs, w').
Proof.
  intros Hfetch Hloads Hkeys Hget.
  assert (_load fuel client w = Some (mapM dacite.from_dict records, w'))
    as Hload.
  { rewrite (_load_parsed _ _ _ _ _ _ _ _ _ Hfetch Hloads). f_equal. f_equal.
    apply (load_document_array _ N).
    - apply latest_version_labels; [done|]. by eapply dict_get_keys.
    - simpl. by rewrite Hget. }
  split; [done|].
  intros confs Hconfs. rewrite Hload.
  by apply mapM_Return_Forall2 in Hconfs as ->.
Qed.

(** C5: when the array of the latest version holds a record whose
    [storage_mode] (or [image_storage_mode]) is a string that names no
    member of the enumeration, [_load] raises a malformed-configuration
    error and returns no collection, and no manager is constructed. *)
Theorem _load_unknown_enum fuel client w w' text raw (N : Z) records bad :
  fetch fuel client w = Some (Return text, w') →
  json_loads text = Return raw →
  ConfigManager.latest_version raw = Return N →
  py_getitem raw (version_label N) = Return (PyList records) →
  bad ∈ records →
  unknown_enum bad →
  ∃ field cause,
    _load fuel client w = Some (Raise (MalformedConfig field cause), w') ∧
    __init__ fuel client w = Some (Raise (MalformedConfig field cause), w').
Proof.
  intros Hfetch Hloads HN Hget Hin Hbad.
  destruct (mapM_from_dict_unknown_enum _ _ Hin Hbad) as (f & c & Hm).
  assert (_load fuel client w = Some (Raise (MalformedConfig f c), w'))
    as Hload.
  { rewrite (_load_parsed _ _ _ _ _ _ _ _ _ Hfetch Hloads).
    by rewrite (load_document_array _ _ _ HN Hget), Hm. }
  exists f, c. split; [done|].
  by rewrite (__init___loaded _ _ _ _ _ _ _ _ Hload).
Qed.

(** C10: the key [_load] looks up is ['_'] followed by the decimal form
    of the largest integer read from the keys with their underscores
    removed.  When the document has no such key, [_load] raises
    [KeyError] with that key; when it has, [_load] decodes what is
    under it.  So the documents whose only key is [_01], or [_1_0], are
    not loaded: their key reads as 1, or 10, and the lookup of [_1], or
    [_10], raises [KeyError]. *)
Theorem _load_rebuilds_key :
  (∀ fuel client w w' text doc (N : Z),
     fetch fuel client w = Some (Return text, w') →
     json_loads text = Return (PyDict doc) →
     ConfigManager.latest_version (PyDict doc) = Return N →
     (∃ versions,
        mapM (λ key, py_replace_underscores key ≫= Int.parse)
          (PyStr <$> dict_keys doc) = Return versions ∧
        Int.max versions = Return N) ∧
     (dict_get doc ("_" +:+ Int.str N) = None →
      _load fuel client w = Some (Raise (KeyError ("_" +:+ Int.str N)), w')) ∧
     (∀ array,
        dict_get doc ("_" +:+ Int.str N) = Some array →
        _load fuel client w =
          Some (items ← py_iter array; ConfigManager.for_conf items [], w'))) ∧
  (ConfigManager.latest_version document_01 = Return 1 ∧
   ConfigManager.load_document document_01 = Raise (KeyError "_1")) ∧
  (ConfigManager.latest_version document_1_0 = Return 10 ∧
   ConfigManager.load_document document_1_0 = Raise (KeyError "_10")).
Proof.
  split; [|by vm_compute].
  intros fuel client w w' text doc N Hfetch Hloads HN.
  rewrite (_load_parsed _ _ _ _ _ _ _ _ _ Hfetch Hloads).
  unfold ConfigManager.load_document. rewrite HN, bind_Return.
  split_and!.
  - unfold ConfigManager.latest_version in HN.
    change (py_iter (PyDict doc)) with (Return (PyStr <$> dict_keys doc)) in HN.
    rewrite bind_Return in HN.
    destruct (mapM _ (PyStr <$> dict_keys doc)) as [versions|]; [|done].
    by exists versions.
  - intros Hget. unfold py_getitem. by rewrite Hget.
  - intros array Hget. unfold py_getitem. by rewrite Hget.
Qed.

End Manager.

Lemma _load_latest_version_witness :
  ConfigManager._load (loads_text_of document_132) "bucket" "config.json"
    1 (store_of document_132) world0
  = Some (Return [conf_of "b" "y"], World 1 []).
Proof.
  refine (proj2 (_load_latest_version (loads_text_of document_132)
                   "bucket" "config.json" 1 (store_of document_132)
                   world0 (World 1 []) (text_of document_132)
                   [("_1", PyList [record_of "a" "x"]);
                    ("_3", PyList [record_of "b" "y"]);
                    ("_2", PyList [record_of "c" "z"])]
                   3 [record_of "b" "y"] _ _ _ _) [conf_of "b" "y"] _).
  - vm_compute. reflexivity.
  - vm_compute. reflexivity.
  - repeat constructor.
    + exists 1. split; [vm_compute; reflexivity | lia].
    + exists 3. split; [vm_compute; reflexivity | lia].
    + exists 2. split; [vm_compute; reflexivity | lia].
  - vm_compute. reflexivity.
  - repeat constructor.
Defined.

Lemma _load_unknown_enum_witness :
  ∃ field cause,
    ConfigManager._load (loads_text_of document_S3) "bucket" "config.json"
      1 (store_of document_S3) world0
    = Some (Raise (MalformedConfig field cause), World 1 []) ∧
    ConfigManager.__init__ (loads_text_of document_S3) "bucket" "config.json"
      1 (store_of document_S3) world0
    = Some (Raise (MalformedConfig field cause), World 1 []).
Proof.
  refine (_load_unknown_enum (loads_text_of document_S3)
            "bucket" "config.json" 1 (store_of document_S3)
            world0 (World 1 []) (text_of document_S3) document_S3
            1 [record_of "a" "x"; record_S3] record_S3 _ _ _ _ _ _).
  - vm_compute. reflexivity.
  - vm_compute. reflexivity.
  - vm_compute. reflexivity.
  - vm_compute. reflexivity.
  - right. left.
  - eexists _, "S3". split; [reflexivity|]. left.
    split; [reflexivity|]. intros []; discriminate.
Defined.

Lemma _load_rebuilds_key_witness :
  ConfigManager._load (loads_text_of document_01) "bucket" "config.json"
    1 (store_of document_01) world0
  = Some (Raise (KeyError "_1"), World 1 []) ∧
  ConfigManager._load (loads_text_of document_1_0) "bucket" "config.json"
    1 (store_of document_1_0) world0
  = Some (Raise (KeyError "_10"), World 1 []).
Proof.
  split.
  - refine (proj1 (proj2 (proj1 (_load_rebuilds_key
                     (loads_text_of document_01) "bucket" "config.json")
                     1%nat (store_of document_01)
                     world0 (World 1 []) (text_of document_01)
                     [("_01", PyList [record_of "a" "x"])] 1 _ _ _)) _);
      vm_compute; reflexivity.
  - refine (proj1 (proj2 (proj1 (_load_rebuilds_key
                     (loads_text_of document_1_0) "bucket" "config.json")
                     1%nat (store_of document_1_0)
                     world0 (World 1 []) (text_of document_1_0)
                     [("_1_0", PyList [record_of "a" "x"])] 10 _ _ _)) _);
      vm_compute; reflexivity.
Defined.

(** ** Retries *)

(** C2: when the next two requests raise [NoSuchKey] and the third
    succeeds, that is, is answered with a response whose stream holds its
    end marker, as every stream of the store does, the fetcher returns
    the decoding of the payload of that response after exactly three
    requests, two of them logged as retries; and when a request raises
    anything else, the loop raises it at once, without another
    request. *)
Theorem get_s3_object_retries client bucket key ser :
  (∀ fuel w message1 message2 payload,
     client (requests w) (select_all bucket key ser)
       = Fails (ClientError "NoSuchKey" message1) →
     client (S (requests w)) (select_all bucket key ser)
       = Fails (ClientError "NoSuchKey" message2) →
     client (S (S (requests w))) (select_all bucket key ser)
       = Response payload →
     has_End payload = true →
     get_s3_object (3 + fuel) client bucket key ser w =
       Some (Utf8.decode (fragments payload),
             World (3 + requests w)
               (log w ++ [LogError "NoSuchKey" message1 key;
                          LogError "NoSuchKey" message2 key]))) ∧
  (∀ fuel records w exc,
     client (requests w) (select_all bucket key ser) = Fails exc →
     fatal exc →
     while_repeat (S fuel) client (select_all bucket key ser) records w =
       Some (Raise exc, World (S (requests w)) (log w)) ∧
     (records = [] →
      get_s3_object (S fuel) client bucket key ser w =
        Some (Raise exc, World (S (requests w)) (log w)))).
Proof.
  split.
  - intros fuel w m1 m2 payload H1 H2 H3 Hend.
    unfold get_s3_object.
    change (3 + fuel)%nat with (S (S (S fuel))).
    rewrite (while_repeat_NoSuchKey _ _ _ _ _ _ H1).
    rewrite (while_repeat_NoSuchKey _ _ _ _ _ m2) by done.
    rewrite (while_repeat_ended _ _ _ _ _ payload) by done.
    simpl. by rewrite <-app_assoc.
  - intros fuel records w exc Hc Hfatal.
    pose proof (while_repeat_fatal _ _ fuel records w _ Hc Hfatal) as Hw.
    split; [done|]. intros ->.
    unfold get_s3_object. by rewrite Hw.
Qed.

Lemma get_s3_object_retries_witness :
  get_s3_object 3 store_late "bucket" "key" PyNone world0 =
    Some (Return "ab",
          World 3 [LogError "NoSuchKey" "The specified key does not exist." "key";
                   LogError "NoSuchKey" "The specified key does not exist." "key"]) ∧
  get_s3_object 1 store_denied "bucket" "key" PyNone world0 =
    Some (Raise (ClientError "AccessDenied" "Access Denied"), World 1 []).
Proof.
  split.
  - exact (proj1 (get_s3_object_retries store_late "bucket" "key" PyNone)
             0%nat world0 _ _ [RecordsEvent [x61; x62]; EndEvent]
             eq_refl eq_refl eq_refl eq_refl).
  - refine (proj2 (proj2 (get_s3_object_retries store_denied "bucket" "key"
                            PyNone)
                     0%nat [] world0 _ eq_refl _) eq_refl).
    intros message [=].
Defined.

(** A response cut before its end marker is not an answer yet: the
    third response of [store_truncated] carries [ab] and no end marker,
    so the fetcher issues a fourth request and returns [abcd], whatever
    the fuel. *)
Example get_s3_object_truncated_response :
  store_truncated 0%nat (select_all "bucket" "key" PyNone)
    = Fails (ClientError "NoSuchKey" "The specified key does not exist.") ∧
  store_truncated 1%nat (select_all "bucket" "key" PyNone)
    = Fails (ClientError "NoSuchKey" "The specified key does not exist.") ∧
  store_truncated 2%nat (select_all "bucket" "key" PyNone)
    = Response [RecordsEvent [x61; x62]] ∧
  Utf8.decode (fragments [RecordsEvent [x61; x62]]) = Return "ab" ∧
  (∀ fuel r w,
     get_s3_object fuel store_truncated "bucket" "key" PyNone world0
       = Some (r, w) →
     r = Return "abcd" ∧ requests w = 4%nat) ∧
  get_s3_object 4 store_truncated "bucket" "key" PyNone world0 =
    Some (Return "abcd",
          World 4 [LogError "NoSuchKey" "The specified key does not exist." "key";
                   LogError "NoSuchKey" "The specified key does not exist." "key"]).
Proof.
  split_and!; try reflexivity.
  intros fuel r w.
  do 4 (destruct fuel as [|fuel]; [intros [=]|]).
  vm_compute. by intros [= <- <-].
Qed.

(** ** Lookups *)

(** C6: [get_conf_by_slug] returns the first configuration, in the order
    of the collection, whose slug is the argument, also when several have
    it, and [None] when none has it; it raises nothing. *)
Theorem get_conf_by_slug_first self slug' :
  match ConfigManager.get_conf_by_slug self slug' with
  | Some conf =>
      ∃ before after,
        ConfigManager.config self = before ++ conf :: after ∧
        slug conf = slug' ∧
        Forall (λ c, slug c ≠ slug') before
  | None => Forall (λ c, slug c ≠ slug') (ConfigManager.config self)
  end.
Proof.
  unfold ConfigManager.get_conf_by_slug.
  induction (ConfigManager.config self) as [|c confs IH]; simpl; [done|].
  destruct (String.eqb_spec (slug c) slug') as [Heq|Hne].
  - by exists [], confs.
  - destruct (find _ confs) as [conf|].
    + destruct IH as (before & after & -> & ? & ?).
      exists (c :: before), after. split_and!; [done|done|by constructor].
    + by constructor.
Qed.

(** The first of two configurations with the same slug wins. *)
Example get_conf_by_slug_duplicates :
  let first := mkConf ["x"] ["en"] [] "p" S3_ES ACTIVE None in
  let second := mkConf ["y"] ["fr"] [] "p" TEST_MODE INACTIVE None in
  let self := ConfigManager.mk [conf_of "a" "z"; first; second]
                (ConfigManager._pool_config [conf_of "a" "z"; first; second]) in
  ConfigManager.get_conf_by_slug self "p" = Some first ∧
  ConfigManager.get_conf_by_slug self "q" = None.
Proof. split; reflexivity. Qed.

(** C7: [get_tracking_info] returns, for the first configuration whose
    slug is the argument, a dict with the three keys [lang], [keywords]
    and [slug] and the values of these fields, and nothing else; it
    returns [None] when no configuration has the slug. *)
Theorem get_tracking_info_fields self slug' :
  ConfigManager.get_tracking_info self slug' =
    (λ conf, [("lang", PyList (PyStr <$> lang conf));
              ("keywords", PyList (PyStr <$> keywords conf));
              ("slug", PyStr (slug conf))])
    <$> ConfigManager.get_conf_by_slug self slug' ∧
  (∀ info,
     ConfigManager.get_tracking_info self slug' = Some info →
     dict_keys info = ["lang"; "keywords"; "slug"]) ∧
  (ConfigManager.get_tracking_info self slug' = None ↔
   Forall (λ c, slug c ≠ slug') (ConfigManager.config self)).
Proof.
  unfold ConfigManager.get_tracking_info, ConfigManager.get_conf_by_slug.
  induction (ConfigManager.config self) as [|c confs (IH1 & IH2 & IH3)];
    simpl.
  - split_and!; [done|done|]. split; [constructor|done].
  - destruct (String.eqb_spec (slug c) slug') as [Heq|Hne].
    + split_and!; [done|by intros info [= <-]|].
      split; [done|]. by intros [? _]%Forall_cons.
    + split_and!; [done|done|].
      rewrite IH3. split; [by constructor|by intros [_ ?]%Forall_cons].
Qed.

(** ** The pooled filter *)

Lemma foldl_pool filter_conf config :
  foldl ConfigManager.pool filter_conf config =
    FilterConf.mk
      (FilterConf.keywords filter_conf ∪
         ⋃ ((λ conf, list_to_set (keywords conf)) <$> config))
      (FilterConf.lang filter_conf ∪
         ⋃ ((λ conf, list_to_set (lang conf)) <$> config)).
Proof.
  revert filter_conf. induction config as [|c config IH]; intros [ks ls]; simpl.
  - by rewrite !(right_id_L ∅ (∪)).
  - rewrite IH. simpl. by rewrite !(assoc_L (∪)).
Qed.

(** C4: the keywords of the pooled filter are the union of the keywords
    of the configurations, its languages the union of their languages:
    a string is in the set exactly when some configuration lists it, and
    the set holds it once however many configurations do. *)
Theorem _pool_config_union config :
  let filter_conf := ConfigManager._pool_config config in
  FilterConf.keywords filter_conf
    = ⋃ ((λ conf, list_to_set (keywords conf)) <$> config) ∧
  FilterConf.lang filter_conf
    = ⋃ ((λ conf, list_to_set (lang conf)) <$> config) ∧
  (∀ k, k ∈ FilterConf.keywords filter_conf ↔
        ∃ conf, conf ∈ config ∧ k ∈ keywords conf) ∧
  (∀ l, l ∈ FilterConf.lang filter_conf ↔
        ∃ conf, conf ∈ config ∧ l ∈ lang conf) ∧
  NoDup (elements (FilterConf.keywords filter_conf)) ∧
  NoDup (elements (FilterConf.lang filter_conf)).
Proof.
  intros filter_conf. unfold filter_conf, ConfigManager._pool_config.
  rewrite foldl_pool. simpl.
  assert (∀ (f : Conf → list string) x,
            x ∈ (∅ ∪ ⋃ ((λ conf, list_to_set (f conf)) <$> config) : gset string)
            ↔ ∃ conf, conf ∈ config ∧ x ∈ f conf) as Hin.
  { intros f x. rewrite elem_of_union, elem_of_union_list. split.
    - intros [?%elem_of_empty|(X & (conf & -> & ?)%list_elem_of_fmap & Hx)];
        [done|].
      exists conf. split; [done|]. by apply elem_of_list_to_set in Hx.
    - intros (conf & ? & Hx). right. exists (list_to_set (f conf)).
      split; [apply list_elem_of_fmap; eauto|].
      by apply elem_of_list_to_set. }
  split_and!; try apply NoDup_elements; try apply Hin.
  - by rewrite (left_id_L ∅ (∪)).
  - by rewrite (left_id_L ∅ (∪)).
Qed.

(** Two projects that both list [python] put it in the pool once. *)
Example _pool_config_python :
  elements (FilterConf.keywords
              (ConfigManager._pool_config
                 [conf_of "p1" "python"; conf_of "p2" "python"]))
  = ["python"].
Proof. vm_compute. reflexivity. Qed.

(** ** Writing *)

Lemma andthen_exc (a b : json.out) :
  (json.andthen a b).2 = match a.2 with Some e => Some e | None => b.2 end.
Proof. by destruct a as [s [e|]]. Qed.

Lemma each_item_exc_None iterencode separator first items :
  Forall (λ value, (iterencode value).2 = None) items →
  (json.each_item iterencode separator first items).2 = None.
Proof.
  intros H. revert first.
  induction H as [|value items Hv _ IH]; intros first; simpl; [done|].
  by rewrite !andthen_exc, Hv, IH.
Qed.

Section Writing.

Variable encoder : string → string.
Variable floatstr : N → string.
Variable writable : string → bool.

(** A list of strings is written without an exception. *)
Lemma iterencode_strs (l : list string) level :
  (json.iterencode encoder floatstr (PyList (PyStr <$> l)) level).2 = None.
Proof.
  destruct l as [|x l]; [done|].
  change (PyStr <$> x :: l) with (PyStr x :: (PyStr <$> l)).
  cbn [json.iterencode]. rewrite !andthen_exc. simpl.
  rewrite each_item_exc_None; [done|].
  apply Forall_fmap, Forall_true. done.
Qed.

(** The dict of a configuration is not: the encoder stops at the
    storage mode, which is an enum member. *)
Lemma iterencode_asdict conf level :
  (json.iterencode encoder floatstr (asdict conf) level).2 = Some TypeError.
Proof.
  unfold asdict.
  pose proof (iterencode_strs (keywords conf) (S level)) as Hk.
  pose proof (iterencode_strs (lang conf) (S level)) as Hl.
  pose proof (iterencode_strs (locales conf) (S level)) as Hc.
  revert Hk Hl Hc.
  generalize (PyList (PyStr <$> keywords conf))
    (PyList (PyStr <$> lang conf)) (PyList (PyStr <$> locales conf)).
  intros ks ls cs Hk Hl Hc.
  cbn [json.iterencode json.each_entry].
  rewrite !andthen_exc. cbn [json.yield snd].
  by rewrite Hk, Hl, Hc.
Qed.

Lemma dump_configs conf confs :
  (json.dump encoder floatstr (PyList (asdict <$> conf :: confs))).2
  = Some TypeError.
Proof.
  unfold json.dump.
  change (asdict <$> conf :: confs) with (asdict conf :: (asdict <$> confs)).
  pose proof (iterencode_asdict conf 1) as Hconf. revert Hconf.
  generalize (asdict conf). intros o Hconf.
  cbn [json.iterencode json.each_item].
  rewrite !andthen_exc. cbn [json.yield snd].
  by rewrite Hconf.
Qed.

(** C3 fails on the code: for a collection that is not empty, [write]
    raises [TypeError] (a [StorageMode] member is not JSON
    serializable) instead of writing the array; the file is left with
    the text written before the first storage mode. *)
Theorem write_raises_TypeError self path fs :
  writable path = true →
  ConfigManager.config self ≠ [] →
  (ConfigManager.write encoder floatstr writable self path fs).1
  = Raise TypeError.
Proof.
  intros Hw Hne. unfold ConfigManager.write. rewrite Hw.
  destruct (ConfigManager.config self) as [|conf confs]; [done|].
  pose proof (dump_configs conf confs) as Hdump.
  destruct (json.dump _ _ _) as [text exc]. simpl in Hdump.
  by subst.
Qed.

(** Only the empty collection is written. *)
Lemma write_empty filter_conf path fs :
  writable path = true →
  ConfigManager.write encoder floatstr writable
    (ConfigManager.mk [] filter_conf) path fs
  = (Return (), <[path := "[]"]> fs).
Proof. intros Hw. unfold ConfigManager.write. by rewrite Hw. Qed.

End Writing.

Lemma write_raises_TypeError_witness :
  (ConfigManager.write dq (λ _, "0.0") (λ _, true)
     (ConfigManager.mk [conf_of "p1" "a"]
        (ConfigManager._pool_config [conf_of "p1" "a"]))
     "config.json" ∅).1
  = Raise TypeError.
Proof.
  apply (write_raises_TypeError dq (λ _, "0.0") (λ _, true)
           (ConfigManager.mk [conf_of "p1" "a"]
              (ConfigManager._pool_config [conf_of "p1" "a"]))
           "config.json" ∅).
  - reflexivity.
  - discriminate.
Defined.

(** What the file holds after the failed [write] of the configuration of
    the specification's end-to-end example. *)
Example write_p1_file :
  (ConfigManager.write dq (λ _, "0.0") (λ _, true)
     (ConfigManager.mk [conf_of "p1" "a"]
        (ConfigManager._pool_config [conf_of "p1" "a"]))
     "config.json" ∅).2 !! "config.json"
  = Some ("[" +:+ json.newline_indent 1 +:+
          "{" +:+ json.newline_indent 2 +:+
          dq "keywords" +:+ ": [" +:+ json.newline_indent 3 +:+
          dq "a" +:+ json.newline_indent 2 +:+ "]," +:+
          json.newline_indent 2 +:+
          dq "lang" +:+ ": [" +:+ json.newline_indent 3 +:+
          dq "en" +:+ json.newline_indent 2 +:+ "]," +:+
          json.newline_indent 2 +:+
          dq "locales" +:+ ": []," +:+ json.newline_indent 2 +:+
          dq "slug" +:+ ": " +:+ dq "p1" +:+ "," +:+
          json.newline_indent 2 +:+
          dq "storage_mode" +:+ ": ").
Proof. vm_compute. reflexivity. Qed.

(** ** The end-to-end example of the specification *)

Example __init___end_to_end :
  let document := PyDict [("_1", PyList [record_of "p1" "a"])] in
  ∃ self,
    ConfigManager.__init__ (loads_text_of document) "bucket" "config.json"
      1 (store_of document) world0 = Some (Return self, World 1 []) ∧
    ConfigManager.config self = [conf_of "p1" "a"] ∧
    elements (FilterConf.keywords (ConfigManager.filter_config self)) = ["a"] ∧
    elements (FilterConf.lang (ConfigManager.filter_config self)) = ["en"].
Proof.
  eexists. split; [vm_compute; reflexivity|].
  split_and!; vm_compute; reflexivity.
Qed.

(** * Further properties *)

(** ** The loop of the fetcher *)

Section Loop.

Variable client : s3_client.
Variable req : select_request.

(** What the loop has done when it stops: requests, log and bytes. *)
Lemma while_repeat_trace fuel records w r w' :
  while_repeat fuel client req records w = Some (r, w') →
  ∃ n,
    requests w' = (requests w + S n)%nat ∧
    log w' = log w ++ retry_log client req (requests w) (S n) ∧
    ∀ out, r = Return out →
           out = records ++ received client req (requests w) (S n).
Proof.
  revert records w r w'.
  induction fuel as [|fuel IH]; intros records w r w'; [done|].
  assert (∀ exc, client (requests w) req = Fails exc → fatal exc →
                 Some (Raise exc, World (S (requests w)) (log w))
                   = Some (r, w') →
                 ∃ n, requests w' = (requests w + S n)%nat ∧
                      log w' = log w ++ retry_log client req (requests w) (S n) ∧
                      ∀ out, r = Return out →
                             out = records ++ received client req (requests w) (S n))
    as Hstop.
  { intros exc Hc Hf [= <- <-]. exists 0%nat.
    cbn [retry_log received]. rewrite Hc.
    split_and!; [simpl; lia| |done].
    destruct exc as [code message| | | | | | | | |];
      rewrite ?app_nil_r; try done.
    destruct (String.eqb_spec code "NoSuchKey") as [->|]; [|by rewrite !app_nil_r].
    by destruct (Hf message). }
  cbn [while_repeat].
  destruct (client (requests w) req) as [payload|exc] eqn:Hc.
  - rewrite for_events_spec. cbn [andb negb].
    destruct (has_End payload); cbn [negb].
    + intros [= <- <-]. exists 0%nat.
      cbn [retry_log received]. rewrite Hc, !app_nil_r.
      split_and!; [simpl; lia|done|by intros out [= <-]].
    + intros (n & Hr & Hl & Ho)%IH. cbn [requests log] in Hr, Hl, Ho.
      exists (S n). split_and!; [lia| |].
      * rewrite Hl. cbn [retry_log]. by rewrite Hc.
      * intros out Hout. rewrite (Ho _ Hout).
        cbn [received]. rewrite Hc. by rewrite <-app_assoc.
  - destruct exc as [code message| | | | | | | | |];
      try (apply Hstop; [done|by intros m]).
    destruct (String.eqb_spec code "NoSuchKey") as [->|Hne].
    + intros (n & Hr & Hl & Ho)%IH. cbn [requests log] in Hr, Hl, Ho.
      exists (S n). split_and!; [lia| |].
      * rewrite Hl. cbn [retry_log]. rewrite Hc. cbn [String.eqb Ascii.eqb].
        simpl. by rewrite <-app_assoc.
      * intros out Hout. rewrite (Ho _ Hout).
        cbn [received]. by rewrite Hc.
    + apply Hstop; [done|]. intros m [=]. done.
Qed.

(** The loop raises only what the last request raised, and never
    [NoSuchKey]. *)
Lemma while_repeat_Raise fuel records w e w' :
  while_repeat fuel client req records w = Some (Raise e, w') →
  ∃ n, requests w' = S n ∧ client n req = Fails e ∧ fatal e.
Proof.
  revert records w.
  induction fuel as [|fuel IH]; intros records w; simpl; [done|].
  destruct (client (requests w) req) as [payload|exc] eqn:Hc.
  - rewrite for_events_spec. simpl.
    destruct (has_End payload); simpl; [done|apply IH].
  - destruct exc as [code message| | | | | | | | |];
      try (intros [= <- <-]; exists (requests w); by split_and!).
    destruct (String.eqb_spec code "NoSuchKey") as [->|Hne]; [apply IH|].
    intros [= <- <-]. exists (requests w). split_and!; [done|done|].
    intros m [=]. done.
Qed.

(** While the key is missing the loop goes on. *)
Lemma while_repeat_missing fuel records w :
  (∀ n, (requests w ≤ n)%nat →
        ∃ message, client n req = Fails (ClientError "NoSuchKey" message)) →
  while_repeat fuel client req records w = None.
Proof.
  revert w. induction fuel as [|fuel IH]; intros w Hmiss; simpl; [done|].
  destruct (Hmiss (requests w)) as [message ->]; [lia|]. simpl.
  apply IH. simpl. intros n Hn. apply Hmiss. lia.
Qed.

(** [k] answers [NoSuchKey] cost [k] iterations and [k] log lines. *)
Lemma while_repeat_retries k fuel records w (message : nat → string) :
  (∀ i, (i < k)%nat →
        client (requests w + i)%nat req
          = Fails (ClientError "NoSuchKey" (message i))) →
  while_repeat (k + fuel) client req records w =
    while_repeat fuel client req records
      (World (requests w + k)
         (log w ++ ((λ i, LogError "NoSuchKey" (message i) (Key req))
                      <$> seq 0 k))).
Proof.
  revert w message. induction k as [|k IH]; intros w message Hk.
  - simpl. rewrite Nat.add_0_r, app_nil_r. by destruct w.
  - change (S k + fuel)%nat with (S (k + fuel)).
    rewrite (while_repeat_NoSuchKey _ _ _ _ _ (message 0%nat)).
    2:{ rewrite <-(Hk 0%nat) by lia. by rewrite Nat.add_0_r. }
    rewrite (IH _ (λ i, message (S i))).
    2:{ intros i Hi. simpl. rewrite <-(Hk (S i)) by lia.
        f_equal. lia. }
    cbn [requests log]. f_equal. f_equal; [lia|].
    rewrite <-app_assoc. f_equal.
    change (seq 0 (S k)) with (0%nat :: seq 1 k).
    rewrite fmap_cons. simpl. f_equal.
    by rewrite <-fmap_S_seq, <-list_fmap_compose.
Qed.

End Loop.

(** ** The fetcher *)

Lemma decode_Return bs text :
  Utf8.decode bs = Return text → list_byte_of_string text = bs.
Proof.
  unfold Utf8.decode. case_match; [|done].
  intros [= <-]. apply list_byte_of_string_of_list_byte.
Qed.

Lemma decode_Raise bs e : Utf8.decode bs = Raise e → e = UnicodeDecodeError.
Proof. unfold Utf8.decode. case_match; [done|]. by intros [= <-]. Qed.

Lemma retry_log_NoSuchKey client req a n :
  Forall (λ l, log_code l = "NoSuchKey" ∧ log_key l = Key req)
    (retry_log client req a n).
Proof.
  revert a. induction n as [|n IH]; intros a; cbn [retry_log]; [done|].
  apply Forall_app. split; [|done].
  destruct (client a req) as [|[code message| | | | | | | | |]]; try done.
  destruct (String.eqb_spec code "NoSuchKey") as [->|]; [|done].
  by repeat constructor.
Qed.

(** X1: while the store answers every request with [NoSuchKey], the
    fetcher does not return, however many iterations it is given. *)
Theorem get_s3_object_missing_key fuel client bucket key ser w :
  (∀ n, (requests w ≤ n)%nat →
        ∃ message,
          client n (select_all bucket key ser)
            = Fails (ClientError "NoSuchKey" message)) →
  get_s3_object fuel client bucket key ser w = None.
Proof.
  intros Hmiss. unfold get_s3_object.
  by rewrite while_repeat_missing.
Qed.

Lemma get_s3_object_missing_key_witness :
  get_s3_object 1000 store_missing "bucket" "key" PyNone world0 = None.
Proof.
  apply (get_s3_object_missing_key 1000 store_missing "bucket" "key" PyNone
           world0).
  intros n _. exists "The specified key does not exist.".
  unfold store_missing, scripted. by destruct n.
Defined.

(** X2: after any number [k] of [NoSuchKey] answers, a response with an
    end marker makes the fetcher return the decoding of its payload,
    after [k + 1] requests, with one log line for each failed request,
    carrying the code, the message of that failure and the key. *)
Theorem get_s3_object_after_retries k fuel client bucket key ser w
    (message : nat → string) payload :
  (∀ i, (i < k)%nat →
        client (requests w + i)%nat (select_all bucket key ser)
          = Fails (ClientError "NoSuchKey" (message i))) →
  client (requests w + k)%nat (select_all bucket key ser) = Response payload →
  has_End payload = true →
  get_s3_object (k + S fuel) client bucket key ser w =
    Some (Utf8.decode (fragments payload),
          World (S (requests w + k))
            (log w ++ ((λ i, LogError "NoSuchKey" (message i) key)
                         <$> seq 0 k))).
Proof.
  intros Hk Hc Hend. unfold get_s3_object.
  rewrite (while_repeat_retries _ _ k (S fuel) [] w message Hk).
  by rewrite (while_repeat_ended _ _ _ _ _ payload).
Qed.

Lemma get_s3_object_after_retries_witness :
  get_s3_object 3 store_late "bucket" "key" PyNone world0 =
    Some (Return "ab",
          World 3 [LogError "NoSuchKey" "The specified key does not exist." "key";
                   LogError "NoSuchKey" "The specified key does not exist." "key"]).
Proof.
  apply (get_s3_object_after_retries 2 0 store_late "bucket" "key" PyNone
           world0 (λ _, "The specified key does not exist.")
           [RecordsEvent [x61; x62]; EndEvent]).
  - intros [|[|i]] Hi; [reflexivity|reflexivity|lia].
  - reflexivity.
  - reflexivity.
Defined.

(** X3: the text the fetcher returns is, byte for byte, the fragments of
    all the responses it received since the call, in the order of the
    requests: nothing is dropped between two responses and nothing else
    is added. *)
Theorem get_s3_object_returns_received fuel client bucket key ser w text w' :
  get_s3_object fuel client bucket key ser w = Some (Return text, w') →
  ∃ n,
    requests w' = (requests w + S n)%nat ∧
    list_byte_of_string text =
      received client (select_all bucket key ser) (requests w) (S n).
Proof.
  unfold get_s3_object.
  destruct (while_repeat _ _ _ _ _) as [[r w1]|] eqn:Hloop; [|done].
  cbn [mbind option_bind]. intros [= Hr <-].
  destruct (while_repeat_trace _ _ _ _ _ _ _ Hloop) as (n & Hreq & _ & Hout).
  exists n. split; [done|].
  destruct r as [out|]; [|done]. rewrite bind_Return in Hr.
  apply decode_Return in Hr. rewrite Hr. by apply Hout.
Qed.

Lemma get_s3_object_returns_received_witness :
  ∃ n,
    4%nat = (0 + S n)%nat ∧
    list_byte_of_string "abcd" =
      received store_truncated (select_all "bucket" "key" PyNone) 0 (S n).
Proof.
  exact (get_s3_object_returns_received 4 store_truncated "bucket" "key"
           PyNone world0 "abcd"
           (World 4 [LogError "NoSuchKey" "The specified key does not exist." "key";
                     LogError "NoSuchKey" "The specified key does not exist." "key"])
           eq_refl).
Defined.

(** X4: the end marker does not stop the reading of the stream: the
    fragments that follow it in the same response are part of what the
    fetcher returns. *)
Theorem get_s3_object_reads_past_End fuel client bucket key ser w before after :
  client (requests w) (select_all bucket key ser)
    = Response (before ++ EndEvent :: after) →
  get_s3_object (S fuel) client bucket key ser w =
    Some (Utf8.decode (fragments before ++ fragments after),
          World (S (requests w)) (log w)).
Proof.
  intros Hc. rewrite (get_s3_object_ended _ _ _ _ _ _ _ Hc).
  - by rewrite fragments_app.
  - rewrite has_End_app. simpl. apply orb_true_r.
Qed.

Lemma get_s3_object_reads_past_End_witness :
  get_s3_object 1 store_trailing "bucket" "key" PyNone world0 =
    Some (Return "ab", World 1 []).
Proof.
  exact (get_s3_object_reads_past_End 0 store_trailing "bucket" "key" PyNone
           world0 [RecordsEvent [x61]] [RecordsEvent [x62]] eq_refl).
Defined.

(** X5: what the fetcher raises is the decoding error of the bytes it
    accumulated, or the exception of its last request; it never raises
    the [NoSuchKey] error of the store. *)
Theorem get_s3_object_raises fuel client bucket key ser w e w' :
  get_s3_object fuel client bucket key ser w = Some (Raise e, w') →
  fatal e ∧
  (e = UnicodeDecodeError ∨
   ∃ n, requests w' = S n ∧
        client n (select_all bucket key ser) = Fails e).
Proof.
  unfold get_s3_object.
  destruct (while_repeat _ _ _ _ _) as [[r w1]|] eqn:Hloop; [|done].
  cbn [mbind option_bind]. intros [= Hr <-].
  destruct r as [out|e'].
  - rewrite bind_Return in Hr. apply decode_Raise in Hr as ->.
    split; [by intros m|by left].
  - rewrite bind_Raise in Hr. injection Hr as ->.
    apply while_repeat_Raise in Hloop as (n & ? & ? & ?).
    split; [done|]. right. by exists n.
Qed.

Lemma get_s3_object_raises_witness :
  fatal (ClientError "AccessDenied" "Access Denied") ∧
  (ClientError "AccessDenied" "Access Denied" = UnicodeDecodeError ∨
   ∃ n, 1%nat = S n ∧
        store_denied n (select_all "bucket" "key" PyNone)
          = Fails (ClientError "AccessDenied" "Access Denied")).
Proof.
  exact (get_s3_object_raises 1 store_denied "bucket" "key" PyNone world0
           (ClientError "AccessDenied" "Access Denied") (World 1 []) eq_refl).
Defined.

(** X6: whatever the outcome, the fetcher has issued at least one
    request, the log has only grown, and the lines it added are the
    [NoSuchKey] failures of these requests, in order, each with the key
    of the object. *)
Theorem get_s3_object_log fuel client bucket key ser w r w' :
  get_s3_object fuel client bucket key ser w = Some (r, w') →
  ∃ n,
    requests w' = (requests w + S n)%nat ∧
    log w' = log w ++
      retry_log client (select_all bucket key ser) (requests w) (S n) ∧
    Forall (λ l, log_code l = "NoSuchKey" ∧ log_key l = key)
      (retry_log client (select_all bucket key ser) (requests w) (S n)).
Proof.
  unfold get_s3_object.
  destruct (while_repeat _ _ _ _ _) as [[r1 w1]|] eqn:Hloop; [|done].
  cbn [mbind option_bind]. intros [= _ <-].
  destruct (while_repeat_trace _ _ _ _ _ _ _ Hloop) as (n & Hreq & Hlog & _).
  exists n. split_and!; [done|done|].
  apply (retry_log_NoSuchKey client (select_all bucket key ser)).
Qed.

Lemma get_s3_object_log_witness :
  ∃ n,
    4%nat = (0 + S n)%nat ∧
    [LogError "NoSuchKey" "The specified key does not exist." "key";
     LogError "NoSuchKey" "The specified key does not exist." "key"] =
      [] ++ retry_log store_truncated (select_all "bucket" "key" PyNone)
              0 (S n) ∧
    Forall (λ l, log_code l = "NoSuchKey" ∧ log_key l = "key")
      (retry_log store_truncated (select_all "bucket" "key" PyNone) 0 (S n)).
Proof.
  exact (get_s3_object_log 4 store_truncated "bucket" "key" PyNone world0
           (Return "abcd")
           (World 4 [LogError "NoSuchKey" "The specified key does not exist." "key";
                     LogError "NoSuchKey" "The specified key does not exist." "key"])
           eq_refl).
Defined.

(** ** The decoder *)

Lemma as_str_Some v s : dacite.as_str v = Some s ↔ v = PyStr s.
Proof. destruct v; simpl; split; intros; by simplify_eq. Qed.

Lemma mapM_as_str items l :
  mapM dacite.as_str items = Some l ↔ items = PyStr <$> l.
Proof.
  rewrite mapM_Some. split.
  - induction 1 as [|v s items l Hv%as_str_Some _ IH]; [done|].
    by rewrite fmap_cons, Hv, IH.
  - intros ->. induction l; constructor; [done|done].
Qed.

Lemma as_list_str_Some v l :
  dacite.as_list_str v = Some l ↔ v = PyList (PyStr <$> l).
Proof.
  destruct v; simpl; try (split; intros; by simplify_eq).
  rewrite mapM_as_str. split; intros; by simplify_eq.
Qed.

Lemma as_dict_str_str_Some v d :
  dacite.as_dict_str_str v = Some d ↔ v = PyDict (prod_map id PyStr <$> d).
Proof.
  destruct v as [| | | | | |entries| |]; simpl;
    try (split; intros; by simplify_eq).
  rewrite mapM_Some. split.
  - intros H. f_equal.
    induction H as [|[k v] [k' s] entries d Hv _ IH]; [done|].
    destruct (dacite.as_str v) as [s'|] eqn:Hs; simplify_eq/=.
    by apply as_str_Some in Hs as ->.
  - intros [= ->]. induction d as [|[k s] d IH]; constructor; [done|done].
Qed.

Lemma converter_StorageMode_Some x m :
  converter.StorageMode x = Some m ↔ x = PyStr (StorageMode_name m).
Proof.
  split; [|intros ->; by destruct m].
  destruct x as [| | | |s| | | |]; try done.
  cbv [converter.StorageMode List.find].
  repeat (case String.eqb_spec; [intros <- [= <-]; done|intros _]).
  done.
Qed.

Lemma converter_ImageStorageMode_Some x m :
  converter.ImageStorageMode x = Some m ↔
  x = PyStr (ImageStorageMode_name m).
Proof.
  split; [|intros ->; by destruct m].
  destruct x as [| | | |s| | | |]; try done.
  cbv [converter.ImageStorageMode List.find].
  repeat (case String.eqb_spec; [intros <- [= <-]; done|intros _]).
  done.
Qed.

Lemma required_Return {A} data name (build : pyobj → option A) fault a :
  dacite.required data name build fault = Return a ↔
  ∃ v, dict_get data name = Some v ∧ build v = Some a.
Proof.
  unfold dacite.required. split.
  - repeat case_match; intros; simplify_eq; eauto.
  - intros (v & -> & ->). done.
Qed.

Lemma optional_Return {A} data name (build : pyobj → option A) o :
  dacite.optional data name build = Return o ↔
  match o with
  | None => dict_get data name = None ∨ dict_get data name = Some PyNone
  | Some a =>
      ∃ v, dict_get data name = Some v ∧ v ≠ PyNone ∧ build v = Some a
  end.
Proof.
  unfold dacite.optional. split.
  - repeat case_match; intros; simplify_eq; eauto.
  - destruct o as [a|].
    + intros (v & -> & Hne & Hb). destruct v; by rewrite ?Hb.
    + by intros [->| ->].
Qed.

(** The decoder only looks its seven fields up. *)
Lemma from_dict_ext data data' :
  (∀ name, name ∈ field_names → dict_get data name = dict_get data' name) →
  dacite.from_dict (PyDict data) = dacite.from_dict (PyDict data').
Proof.
  intros H. unfold dacite.from_dict, dacite.required, dacite.optional.
  rewrite (H "keywords"), (H "lang"), (H "locales"), (H "slug"),
    (H "storage_mode"), (H "image_storage_mode"), (H "model_endpoints")
    by (unfold field_names; repeat ((by left) || right)).
  done.
Qed.

(** X7: the type hooks are the inverses of the names of the members: a
    hook gives a member exactly for the string that is its name, and for
    nothing else (no other string, no value that is not a string). *)
Theorem converter_by_name :
  (∀ x m, converter.StorageMode x = Some m ↔ x = PyStr (StorageMode_name m)) ∧
  (∀ x m, converter.ImageStorageMode x = Some m ↔
          x = PyStr (ImageStorageMode_name m)) ∧
  (∀ m m', StorageMode_name m = StorageMode_name m' → m = m') ∧
  (∀ m m', ImageStorageMode_name m = ImageStorageMode_name m' → m = m').
Proof.
  split_and!.
  - apply converter_StorageMode_Some.
  - apply converter_ImageStorageMode_Some.
  - by intros [] [].
  - by intros [] [].
Qed.

(** What a successful decoding tells about the record. *)
Lemma from_dict_Return record conf :
  dacite.from_dict record = Return conf →
  ∃ data,
    record = PyDict data ∧
    dict_get data "keywords" = Some (PyList (PyStr <$> keywords conf)) ∧
    dict_get data "lang" = Some (PyList (PyStr <$> lang conf)) ∧
    dict_get data "locales" = Some (PyList (PyStr <$> locales conf)) ∧
    dict_get data "slug" = Some (PyStr (slug conf)) ∧
    dict_get data "storage_mode"
      = Some (PyStr (StorageMode_name (storage_mode conf))) ∧
    dict_get data "image_storage_mode"
      = Some (PyStr (ImageStorageMode_name (image_storage_mode conf))) ∧
    match model_endpoints conf with
    | None => dict_get data "model_endpoints" = None ∨
              dict_get data "model_endpoints" = Some PyNone
    | Some d => dict_get data "model_endpoints"
                = Some (PyDict (prod_map id PyStr <$> d))
    end.
Proof.
  destruct record as [| | | | | |data| |]; try done.
  unfold dacite.from_dict.
  destruct (dacite.required data "keywords" _ _) as [ks|] eqn:Hk; [|done].
  destruct (dacite.required data "lang" _ _) as [ls|] eqn:Hl; [|done].
  destruct (dacite.required data "locales" _ _) as [cs|] eqn:Hc; [|done].
  destruct (dacite.required data "slug" _ _) as [sl|] eqn:Hs; [|done].
  destruct (dacite.required data "storage_mode" _ _) as [sm|] eqn:Hm; [|done].
  destruct (dacite.required data "image_storage_mode" _ _) as [im|] eqn:Hi;
    [|done].
  destruct (dacite.optional data "model_endpoints" _) as [me|] eqn:He; [|done].
  rewrite !bind_Return. intros [= <-]. exists data. cbn [keywords lang locales
    slug storage_mode image_storage_mode model_endpoints].
  apply required_Return in Hk as (? & -> & ->%as_list_str_Some).
  apply required_Return in Hl as (? & -> & ->%as_list_str_Some).
  apply required_Return in Hc as (? & -> & ->%as_list_str_Some).
  apply required_Return in Hs as (? & -> & ->%as_str_Some).
  apply required_Return in Hm as (? & -> & ->%converter_StorageMode_Some).
  apply required_Return in Hi as (? & -> & ->%converter_ImageStorageMode_Some).
  apply optional_Return in He.
  split_and!; try done.
  destruct me as [d|]; [|done].
  by destruct He as (? & -> & _ & ->%as_dict_str_str_Some).
Qed.

(** X8: a decoded configuration holds what the record holds, field for
    field: the record is a dict, its three lists are lists of strings
    and are the lists of the configuration, its slug is a string, its
    two modes are the names of the members, and its model endpoints are
    absent or null exactly when the configuration has none. *)
Theorem from_dict_fields record conf :
  dacite.from_dict record = Return conf →
  ∃ data,
    record = PyDict data ∧
    dict_get data "keywords" = Some (PyList (PyStr <$> keywords conf)) ∧
    dict_get data "lang" = Some (PyList (PyStr <$> lang conf)) ∧
    dict_get data "locales" = Some (PyList (PyStr <$> locales conf)) ∧
    dict_get data "slug" = Some (PyStr (slug conf)) ∧
    dict_get data "storage_mode"
      = Some (PyStr (StorageMode_name (storage_mode conf))) ∧
    dict_get data "image_storage_mode"
      = Some (PyStr (ImageStorageMode_name (image_storage_mode conf))) ∧
    match model_endpoints conf with
    | None => dict_get data "model_endpoints" = None ∨
              dict_get data "model_endpoints" = Some PyNone
    | Some d => dict_get data "model_endpoints"
                = Some (PyDict (prod_map id PyStr <$> d))
    end.
Proof. apply from_dict_Return. Qed.

Lemma from_dict_fields_witness :
  ∃ data,
    record_of "p1" "a" = PyDict data ∧
    dict_get data "keywords" = Some (PyList (PyStr <$> ["a"])) ∧
    dict_get data "lang" = Some (PyList (PyStr <$> ["en"])) ∧
    dict_get data "locales" = Some (PyList (PyStr <$> [])) ∧
    dict_get data "slug" = Some (PyStr "p1") ∧
    dict_get data "storage_mode" = Some (PyStr "S3_ES") ∧
    dict_get data "image_storage_mode" = Some (PyStr "ACTIVE") ∧
    (dict_get data "model_endpoints" = None ∨
     dict_get data "model_endpoints" = Some PyNone).
Proof.
  exact (from_dict_fields (record_of "p1" "a") (conf_of "p1" "a") eq_refl).
Defined.

Lemma from_dict_of_record conf :
  dacite.from_dict (to_record conf) = Return conf.
Proof.
  destruct conf as [ks ls cs sl sm im me].
  unfold to_record, dacite.from_dict.
  cbn [keywords lang locales slug storage_mode image_storage_mode
       model_endpoints].
  rewrite (proj2 (required_Return _ "keywords" _ _ ks))
    by (eexists; split; [reflexivity|by apply as_list_str_Some]).
  rewrite (proj2 (required_Return _ "lang" _ _ ls))
    by (eexists; split; [reflexivity|by apply as_list_str_Some]).
  rewrite (proj2 (required_Return _ "locales" _ _ cs))
    by (eexists; split; [reflexivity|by apply as_list_str_Some]).
  rewrite (proj2 (required_Return _ "slug" _ _ sl))
    by (eexists; split; [reflexivity|done]).
  rewrite (proj2 (required_Return _ "storage_mode" _ _ sm))
    by (eexists; split; [reflexivity|by apply converter_StorageMode_Some]).
  rewrite (proj2 (required_Return _ "image_storage_mode" _ _ im))
    by (eexists; split; [reflexivity|by apply converter_ImageStorageMode_Some]).
  rewrite (proj2 (optional_Return _ "model_endpoints" _ me)); [done|].
  destruct me as [d|]; [|by right].
  eexists; split_and!; [reflexivity|done|by apply as_dict_str_str_Some].
Qed.

(** X9: every configuration is read back from its record: decoding the
    record that holds the fields of a configuration, with the modes as
    their names, gives the configuration. *)
Theorem from_dict_to_record conf :
  dacite.from_dict (to_record conf) = Return conf.
Proof. apply from_dict_of_record. Qed.

(** X10: the decoder reads a record only through the seven names of the
    fields: two records that agree under these names decode alike, so
    other keys, and the order of the keys, do not matter. *)
Theorem from_dict_other_keys data data' :
  (∀ name, name ∈ field_names → dict_get data name = dict_get data' name) →
  dacite.from_dict (PyDict data) = dacite.from_dict (PyDict data').
Proof. apply from_dict_ext. Qed.

Lemma from_dict_other_keys_witness :
  dacite.from_dict
    (PyDict [("comment", PyInt 7); ("slug", PyStr "p1");
             ("model_endpoints", PyNone);
             ("keywords", PyList [PyStr "a"]); ("lang", PyList [PyStr "en"]);
             ("locales", PyList []); ("image_storage_mode", PyStr "ACTIVE");
             ("storage_mode", PyStr "S3_ES")])
  = dacite.from_dict
      (PyDict [("keywords", PyList [PyStr "a"]); ("lang", PyList [PyStr "en"]);
               ("locales", PyList []); ("slug", PyStr "p1");
               ("storage_mode", PyStr "S3_ES");
               ("image_storage_mode", PyStr "ACTIVE");
               ("model_endpoints", PyNone)]).
Proof.
  apply from_dict_other_keys.
  intros name Hin. unfold field_names in Hin.
  repeat (apply elem_of_cons in Hin as [->|Hin]; [reflexivity|]).
  by apply elem_of_nil in Hin.
Defined.

(** X11: a record that lacks one of the six fields without default is
    rejected as malformed: the decoder returns no configuration for it,
    whatever its other fields are. *)
Theorem from_dict_missing_field data name :
  name ∈ required_names →
  dict_get data name = None →
  ∃ field cause,
    dacite.from_dict (PyDict data) = Raise (MalformedConfig field cause).
Proof.
  intros Hin Hnone.
  destruct (dacite.from_dict (PyDict data)) as [conf|e] eqn:Hd.
  - apply from_dict_Return in Hd
      as (data' & [= <-] & Hk & Hl & Hc & Hs & Hm & Hi & _).
    unfold required_names in Hin.
    repeat (apply elem_of_cons in Hin as [->|Hin]; [congruence|]).
    by apply elem_of_nil in Hin.
  - apply from_dict_Raise in Hd as (f & c & ->). eauto.
Qed.

Lemma from_dict_missing_field_witness :
  ∃ field cause,
    dacite.from_dict
      (PyDict [("keywords", PyList [PyStr "a"]); ("lang", PyList [PyStr "en"]);
               ("locales", PyList []); ("storage_mode", PyStr "S3_ES");
               ("image_storage_mode", PyStr "ACTIVE")])
    = Raise (MalformedConfig field cause).
Proof.
  apply (from_dict_missing_field _ "slug").
  - unfold required_names. by repeat ((by left) || right).
  - reflexivity.
Defined.

(** ** The selection of the version *)

Lemma foldl_max_in (x : Z) l : foldl Z.max x l ∈ x :: l.
Proof.
  revert x. induction l as [|y l IH]; intros x; simpl; [by left|].
  pose proof (IH (x `max` y)) as H. apply elem_of_cons in H as [Heq|Hin].
  - rewrite Heq. destruct (Z.max_spec x y) as [[_ ->]|[_ ->]];
      [right; left|left].
  - by do 2 right.
Qed.

Lemma max_Return l (N : Z) :
  Int.max l = Return N ↔ N ∈ l ∧ Forall (λ y, y ≤ N) l.
Proof.
  split; [|intros [??]; by apply max_greatest].
  destruct l as [|x l]; [done|]. simpl. intros [= <-].
  split; [apply foldl_max_in|].
  destruct (foldl_max_ge x l). by constructor.
Qed.

Lemma max_Raise l e : Int.max l = Raise e ↔ l = [] ∧ e = ValueError.
Proof.
  destruct l; simpl; split; intros; destruct_and?; by simplify_eq.
Qed.

Lemma max_Permutation l l' : l ≡ₚ l' → Int.max l = Int.max l'.
Proof.
  intros Hp. destruct (Int.max l) as [N|e] eqn:Hl; symmetry.
  - apply max_Return. apply max_Return in Hl. by rewrite <-Hp.
  - apply max_Raise. apply max_Raise in Hl as [-> ->].
    by apply Permutation_nil_l in Hp as ->.
Qed.

Lemma parse_Raise s e : Int.parse s = Raise e → e = ValueError.
Proof.
  unfold Int.parse. destruct (Int.sign _) as [neg body].
  case_match; [done|]. by intros [= <-].
Qed.

(** The versions of the keys: all of them, or [ValueError]. *)
Lemma mapM_version_of keys :
  mapM (λ key, py_replace_underscores key ≫= Int.parse) (PyStr <$> keys)
  = mapM version_of keys.
Proof.
  induction keys as [|k keys IH]; [done|].
  rewrite fmap_cons, !mapM_cons, IH. done.
Qed.

Lemma mapM_version_of_Raise keys e :
  mapM version_of keys = Raise e ↔
  e = ValueError ∧ ∃ k, k ∈ keys ∧ version_of k = Raise ValueError.
Proof.
  revert e. induction keys as [|k keys IH]; intros e.
  - split; [done|]. by intros (_ & k & ?%elem_of_nil & _).
  - rewrite mapM_cons. destruct (version_of k) as [n|e'] eqn:Hk.
    + rewrite bind_Return.
      destruct (mapM version_of keys) as [ns|e''].
      * split; [done|]. intros (-> & k' & [->|Hin]%elem_of_cons & Hk').
        -- congruence.
        -- assert (Return ns = Raise ValueError) as [=]. apply IH. eauto.
      * rewrite bind_Raise.
        destruct (proj1 (IH e'') eq_refl) as (-> & k' & ? & ?). split.
        -- intros [= <-]. split; [done|]. exists k'. split; [by right|done].
        -- by intros (-> & _).
    + rewrite bind_Raise. pose proof (parse_Raise _ _ Hk) as ->. split.
      * intros [= <-]. split; [done|]. exists k. split; [by left|done].
      * by intros [-> _].
Qed.

Lemma mapM_version_of_Permutation keys keys' :
  keys ≡ₚ keys' →
  match mapM version_of keys, mapM version_of keys' with
  | Return ns, Return ns' => ns ≡ₚ ns'
  | Raise e, Raise e' => e = e'
  | _, _ => False
  end.
Proof.
  intros Hp.
  destruct (mapM version_of keys) as [ns|e] eqn:Hm;
    destruct (mapM version_of keys') as [ns'|e'] eqn:Hm'.
  - apply mapM_Return_Forall2 in Hm, Hm'.
    revert ns ns' Hm Hm'.
    induction Hp as [|k keys keys' _ IH|k1 k2 keys|k1 k2 k3 Hp1 IH1 _ IH2];
      intros ns ns' Hm Hm'.
    + apply Forall2_nil_inv_l in Hm as ->.
      by apply Forall2_nil_inv_l in Hm' as ->.
    + apply Forall2_cons_inv_l in Hm as (n & ms & Hn & Hms & ->).
      apply Forall2_cons_inv_l in Hm' as (n' & ms' & Hn' & Hms' & ->).
      assert (n = n') as -> by congruence. constructor. by apply IH.
    + apply Forall2_cons_inv_l in Hm as (n2 & ms & Hn2 & Hms & ->).
      apply Forall2_cons_inv_l in Hms as (n1 & ms1 & Hn1 & Hms1 & ->).
      apply Forall2_cons_inv_l in Hm' as (n1' & ms' & Hn1' & Hms' & ->).
      apply Forall2_cons_inv_l in Hms' as (n2' & ms2 & Hn2' & Hms2 & ->).
      assert (n1 = n1') as -> by congruence.
      assert (n2 = n2') as -> by congruence.
      assert (ms1 = ms2) as ->.
      { apply mapM_Return_Forall2 in Hms1, Hms2. congruence. }
      apply perm_swap.
    + destruct (mapM version_of k2) as [ms|e] eqn:H2.
      * apply mapM_Return_Forall2 in H2.
        etrans; [by apply IH1|by apply IH2].
      * apply mapM_version_of_Raise in H2 as (_ & k & Hin & Hk).
        rewrite <-Hp1 in Hin.
        apply list_elem_of_lookup in Hin as [i Hi].
        destruct (Forall2_lookup_l _ _ _ _ _ Hm Hi) as (n & _ & Hn).
        congruence.
  - apply mapM_version_of_Raise in Hm' as (_ & k & Hin & Hk).
    rewrite <-Hp in Hin. apply mapM_Return_Forall2 in Hm.
    apply list_elem_of_lookup in Hin as [i Hi].
    destruct (Forall2_lookup_l _ _ _ _ _ Hm Hi) as (n & _ & Hn). congruence.
  - apply mapM_version_of_Raise in Hm as (_ & k & Hin & Hk).
    rewrite Hp in Hin. apply mapM_Return_Forall2 in Hm'.
    apply list_elem_of_lookup in Hin as [i Hi].
    destruct (Forall2_lookup_l _ _ _ _ _ Hm' Hi) as (n & _ & Hn). congruence.
  - apply mapM_version_of_Raise in Hm as [-> _].
    by apply mapM_version_of_Raise in Hm' as [-> _].
Qed.

Lemma latest_version_keys doc :
  ConfigManager.latest_version (PyDict doc)
  = mapM version_of (dict_keys doc) ≫= Int.max.
Proof.
  unfold ConfigManager.latest_version.
  change (py_iter (PyDict doc)) with (Return (PyStr <$> dict_keys doc)).
  by rewrite bind_Return, mapM_version_of.
Qed.

Lemma dict_get_elem_of {V} (d : list (string * V)) k v :
  NoDup (dict_keys d) → dict_get d k = Some v ↔ (k, v) ∈ d.
Proof.
  unfold dict_keys. induction d as [|[k' v'] d IH]; csimpl.
  - intros _. split; [done|]. by intros ?%elem_of_nil.
  - intros [Hk' Hd]%NoDup_cons. rewrite elem_of_cons.
    destruct (String.eqb_spec k' k) as [->|Hne].
    + split; [intros [= ->]; by left|].
      intros [[= ->]|Hin]; [done|].
      destruct Hk'. apply list_elem_of_fmap. by exists (k, v).
    + rewrite IH by done. split; [by right|].
      intros [[= -> ->]|?]; done.
Qed.

Lemma dict_get_Permutation {V} (d d' : list (string * V)) k :
  NoDup (dict_keys d) → d ≡ₚ d' → dict_get d k = dict_get d' k.
Proof.
  intros Hnd Hp.
  assert (NoDup (dict_keys d')) as Hnd'.
  { unfold dict_keys in *. by rewrite <-Hp. }
  apply option_eq. intros v.
  rewrite !dict_get_elem_of by done. by rewrite Hp.
Qed.

Lemma latest_version_Permutation doc doc' :
  doc ≡ₚ doc' →
  ConfigManager.latest_version (PyDict doc)
  = ConfigManager.latest_version (PyDict doc').
Proof.
  intros Hp. rewrite !latest_version_keys.
  assert (dict_keys doc ≡ₚ dict_keys doc') as Hk.
  { unfold dict_keys. by rewrite Hp. }
  pose proof (mapM_version_of_Permutation _ _ Hk) as H.
  destruct (mapM version_of (dict_keys doc)),
    (mapM version_of (dict_keys doc')); try done.
  - rewrite !bind_Return. by apply max_Permutation.
  - by subst.
Qed.

(** X12: the latest version is the largest integer that the keys of the
    document stand for, whatever the form of the keys: some key reads as
    it, and every key reads as an integer that is not larger. *)
Theorem latest_version_greatest doc (N : Z) :
  ConfigManager.latest_version (PyDict doc) = Return N →
  (∃ k, k ∈ dict_keys doc ∧ Int.parse (Str.replace "_" "" k) = Return N) ∧
  (∀ k, k ∈ dict_keys doc →
        ∃ n, Int.parse (Str.replace "_" "" k) = Return n ∧ n ≤ N).
Proof.
  rewrite latest_version_keys.
  destruct (mapM version_of (dict_keys doc)) as [ns|] eqn:Hm; [|done].
  rewrite bind_Return. intros [HN Hle]%max_Return.
  apply mapM_Return_Forall2 in Hm. split.
  - apply list_elem_of_lookup in HN as [i Hi].
    destruct (Forall2_lookup_r _ _ _ _ _ Hm Hi) as (k & Hk & Hv).
    exists k. split; [|done]. apply list_elem_of_lookup. eauto.
  - intros k [i Hi]%list_elem_of_lookup.
    destruct (Forall2_lookup_l _ _ _ _ _ Hm Hi) as (n & Hn & Hv).
    exists n. split; [done|].
    rewrite Forall_forall in Hle. apply Hle.
    apply list_elem_of_lookup. eauto.
Qed.

Lemma latest_version_greatest_witness :
  (∃ k, k ∈ ["_01"; "_1_0"; "_9"] ∧
        Int.parse (Str.replace "_" "" k) = Return 10) ∧
  (∀ k, k ∈ ["_01"; "_1_0"; "_9"] →
        ∃ n, Int.parse (Str.replace "_" "" k) = Return n ∧ n ≤ 10).
Proof.
  exact (latest_version_greatest
           [("_01", PyNone); ("_1_0", PyNone); ("_9", PyNone)] 10 eq_refl).
Defined.

(** X13: the order of the versions in the document does not matter: two
    documents with the same entries, in any order, load alike (same
    collection, or same exception). *)
Theorem load_document_Permutation doc doc' :
  NoDup (dict_keys doc) →
  doc ≡ₚ doc' →
  ConfigManager.load_document (PyDict doc)
  = ConfigManager.load_document (PyDict doc').
Proof.
  intros Hnd Hp. unfold ConfigManager.load_document.
  rewrite (latest_version_Permutation _ _ Hp).
  destruct (ConfigManager.latest_version (PyDict doc')) as [N|]; [|done].
  rewrite !bind_Return. unfold py_getitem.
  by rewrite (dict_get_Permutation _ _ _ Hnd Hp).
Qed.

Lemma load_document_Permutation_witness :
  ConfigManager.load_document document_132
  = ConfigManager.load_document (PyDict document_321).
Proof.
  apply (load_document_Permutation
           [("_1", PyList [record_of "a" "x"]);
            ("_3", PyList [record_of "b" "y"]);
            ("_2", PyList [record_of "c" "z"])] document_321).
  - apply (bool_decide_unpack _). vm_compute. reflexivity.
  - unfold document_321.
    etrans; [apply perm_swap|]. apply perm_skip, perm_swap.
Defined.

(** X14: loading raises [ValueError], and decodes nothing, when the
    document has no key at all ([max] of an empty list), or has a key
    that does not read as an integer once its underscores are removed.
    The key is one of ASCII characters, where [Int.parse] is [int]. *)
Theorem load_document_ValueError doc :
  doc = [] ∨
  (∃ k, k ∈ dict_keys doc ∧ ascii_only k = true ∧
        Int.parse (Str.replace "_" "" k) = Raise ValueError) →
  ConfigManager.latest_version (PyDict doc) = Raise ValueError ∧
  ConfigManager.load_document (PyDict doc) = Raise ValueError.
Proof.
  intros H.
  assert (ConfigManager.latest_version (PyDict doc) = Raise ValueError)
    as Hlatest.
  { rewrite latest_version_keys.
    destruct H as [->|(k & Hin & _ & Hk)]; [done|].
    assert (mapM version_of (dict_keys doc) = Raise ValueError) as ->; [|done].
    apply mapM_version_of_Raise. split; [done|]. by exists k. }
  split; [done|].
  unfold ConfigManager.load_document. by rewrite Hlatest.
Qed.

Lemma load_document_ValueError_witness :
  ConfigManager.latest_version (PyDict document_latest) = Raise ValueError ∧
  ConfigManager.load_document (PyDict document_latest) = Raise ValueError.
Proof.
  apply (load_document_ValueError document_latest).
  right. exists "latest". split_and!.
  - right. left.
  - reflexivity.
  - reflexivity.
Defined.

(** X15: the label [load] rebuilds for a version reads back as that
    version, and two versions have two labels: for every integer [n],
    [int(('_' + str(n)).replace('_', ''))] is [n]. *)
Theorem version_label_roundtrip :
  (∀ n : Z, Int.parse (Str.replace "_" "" ("_" +:+ Int.str n)) = Return n) ∧
  (∀ n m : Z, "_" +:+ Int.str n = "_" +:+ Int.str m → n = m) ∧
  (∀ n : Z, Int.parse (Int.str n) = Return n).
Proof.
  split_and!.
  - apply parse_version_label.
  - intros n m Heq.
    assert (Return n = Return m) as [= ->]; [|done].
    rewrite <-(parse_version_label n), <-(parse_version_label m).
    unfold version_label. by rewrite Heq.
  - apply parse_str.
Qed.

(** ** Lookups and the pool *)

Lemma pool_keywords config k :
  k ∈ FilterConf.keywords (ConfigManager._pool_config config) ↔
  ∃ conf, conf ∈ config ∧ k ∈ keywords conf.
Proof.
  unfold ConfigManager._pool_config. rewrite foldl_pool. simpl.
  rewrite elem_of_union, elem_of_union_list. split.
  - intros [?%elem_of_empty|(X & (conf & -> & ?)%list_elem_of_fmap & Hx)];
      [done|].
    exists conf. split; [done|]. by apply elem_of_list_to_set in Hx.
  - intros (conf & ? & Hx). right. exists (list_to_set (keywords conf)).
    split; [apply list_elem_of_fmap; eauto|].
    by apply elem_of_list_to_set.
Qed.

Lemma pool_lang config l :
  l ∈ FilterConf.lang (ConfigManager._pool_config config) ↔
  ∃ conf, conf ∈ config ∧ l ∈ lang conf.
Proof.
  unfold ConfigManager._pool_config. rewrite foldl_pool. simpl.
  rewrite elem_of_union, elem_of_union_list. split.
  - intros [?%elem_of_empty|(X & (conf & -> & ?)%list_elem_of_fmap & Hx)];
      [done|].
    exists conf. split; [done|]. by apply elem_of_list_to_set in Hx.
  - intros (conf & ? & Hx). right. exists (list_to_set (lang conf)).
    split; [apply list_elem_of_fmap; eauto|].
    by apply elem_of_list_to_set.
Qed.

Lemma FilterConf_eq (f g : FilterConf.t) :
  FilterConf.keywords f = FilterConf.keywords g →
  FilterConf.lang f = FilterConf.lang g → f = g.
Proof. destruct f, g; simpl; by intros -> ->. Qed.

Lemma find_slug_elem_of confs slug' conf :
  List.find (λ c, String.eqb (slug c) slug') confs = Some conf →
  conf ∈ confs ∧ slug conf = slug'.
Proof.
  induction confs as [|c confs IH]; simpl; [done|].
  destruct (String.eqb_spec (slug c) slug') as [Heq|Hne].
  - intros [= <-]. split; [by left|done].
  - intros [? ?]%IH. split; [by right|done].
Qed.

(** X16: when the slugs of the collection are all different, every
    configuration of the collection is found under its slug, by
    [get_conf_by_slug] and by [get_tracking_info]. *)
Theorem get_conf_by_slug_unique self conf :
  NoDup (slug <$> ConfigManager.config self) →
  conf ∈ ConfigManager.config self →
  ConfigManager.get_conf_by_slug self (slug conf) = Some conf ∧
  ConfigManager.get_tracking_info self (slug conf) =
    Some [("lang", PyList (PyStr <$> lang conf));
          ("keywords", PyList (PyStr <$> keywords conf));
          ("slug", PyStr (slug conf))].
Proof.
  unfold ConfigManager.get_conf_by_slug, ConfigManager.get_tracking_info.
  induction (ConfigManager.config self) as [|c confs IH]; csimpl.
  - by intros _ ?%elem_of_nil.
  - intros [Hc Hnd]%NoDup_cons [->|Hin]%elem_of_cons.
    + by rewrite String.eqb_refl.
    + destruct (String.eqb_spec (slug c) (slug conf)) as [Heq|Hne].
      * destruct Hc. rewrite Heq. apply list_elem_of_fmap. eauto.
      * by apply IH.
Qed.

Lemma get_conf_by_slug_unique_witness :
  ConfigManager.get_conf_by_slug manager_two "health" = Some conf_endpoints ∧
  ConfigManager.get_tracking_info manager_two "health" =
    Some [("lang", PyList [PyStr "en"; PyStr "fr"]);
          ("keywords", PyList [PyStr "flu"; PyStr "cold"]);
          ("slug", PyStr "health")].
Proof.
  apply (get_conf_by_slug_unique manager_two conf_endpoints).
  - apply (bool_decide_unpack _). vm_compute. reflexivity.
  - right. left.
Defined.

Section Built.

Variable json_loads : string → result pyobj.
Variables BUCKET_NAME CONFIG_S3_KEY : string.

Lemma __init___Return fuel client w self w' :
  ConfigManager.__init__ json_loads BUCKET_NAME CONFIG_S3_KEY fuel client w
    = Some (Return self, w') →
  ConfigManager.filter_config self
    = ConfigManager._pool_config (ConfigManager.config self) ∧
  ConfigManager._load json_loads BUCKET_NAME CONFIG_S3_KEY fuel client w
    = Some (Return (ConfigManager.config self), w').
Proof.
  unfold ConfigManager.__init__.
  destruct (ConfigManager._load _ _ _ _ _ _) as [[[config|e] w1]|]; [|done..].
  cbn [mbind option_bind]. rewrite bind_Return. by intros [= <- <-].
Qed.

(** X17: in a manager that [__init__] built, what a project tracks
    passes the pooled filter: the keywords and the languages of every
    configuration that a lookup returns are in the sets of
    [filter_config], and every element of these sets comes from a
    configuration of the collection. *)
Theorem __init___pools_lookups fuel client w self w' :
  ConfigManager.__init__ json_loads BUCKET_NAME CONFIG_S3_KEY fuel client w
    = Some (Return self, w') →
  (∀ slug' conf,
     ConfigManager.get_conf_by_slug self slug' = Some conf →
     (∀ k, k ∈ keywords conf →
           k ∈ FilterConf.keywords (ConfigManager.filter_config self)) ∧
     (∀ l, l ∈ lang conf →
           l ∈ FilterConf.lang (ConfigManager.filter_config self))) ∧
  (∀ k, k ∈ FilterConf.keywords (ConfigManager.filter_config self) →
        ∃ conf, conf ∈ ConfigManager.config self ∧ k ∈ keywords conf) ∧
  (∀ l, l ∈ FilterConf.lang (ConfigManager.filter_config self) →
        ∃ conf, conf ∈ ConfigManager.config self ∧ l ∈ lang conf).
Proof.
  intros H. apply __init___Return in H as [Hf _]. rewrite Hf. split_and!.
  - intros slug' conf [Hin _]%find_slug_elem_of. split.
    + intros k Hk. apply pool_keywords. eauto.
    + intros l Hl. apply pool_lang. eauto.
  - intros k. apply pool_keywords.
  - intros l. apply pool_lang.
Qed.

End Built.

Lemma __init___pools_lookups_witness :
  ∃ self,
    ConfigManager.config self = [conf_of "b" "y"] ∧
    "y" ∈ FilterConf.keywords (ConfigManager.filter_config self) ∧
    "en" ∈ FilterConf.lang (ConfigManager.filter_config self).
Proof.
  set (self := ConfigManager.mk [conf_of "b" "y"]
                 (ConfigManager._pool_config [conf_of "b" "y"])).
  exists self. split; [reflexivity|].
  destruct (__init___pools_lookups (loads_text_of document_132)
              "bucket" "config.json" 1 (store_of document_132) world0
              self (World 1 [])) as (H & _ & _).
  - vm_compute. reflexivity.
  - destruct (H "b" (conf_of "b" "y") eq_refl) as [Hk Hl].
    split; [apply Hk|apply Hl]; by left.
Defined.

(** X18: the pool does not depend on how the collection is cut or
    ordered: the pool of two collections put together is the union of
    their pools, and two collections with the same configurations, in
    any order, have the same pool. *)
Theorem _pool_config_app_Permutation :
  (∀ a b,
     FilterConf.keywords (ConfigManager._pool_config (a ++ b))
       = FilterConf.keywords (ConfigManager._pool_config a)
         ∪ FilterConf.keywords (ConfigManager._pool_config b) ∧
     FilterConf.lang (ConfigManager._pool_config (a ++ b))
       = FilterConf.lang (ConfigManager._pool_config a)
         ∪ FilterConf.lang (ConfigManager._pool_config b)) ∧
  (∀ a b, a ≡ₚ b →
          ConfigManager._pool_config a = ConfigManager._pool_config b).
Proof.
  split.
  - intros a b. split; apply set_eq; intros x.
    + rewrite elem_of_union, !pool_keywords. split.
      * intros (c & [?|?]%elem_of_app & ?); [left|right]; eauto.
      * intros [(c & ? & ?)|(c & ? & ?)]; exists c;
          (split; [apply elem_of_app; eauto|done]).
    + rewrite elem_of_union, !pool_lang. split.
      * intros (c & [?|?]%elem_of_app & ?); [left|right]; eauto.
      * intros [(c & ? & ?)|(c & ? & ?)]; exists c;
          (split; [apply elem_of_app; eauto|done]).
  - intros a b Hp. apply FilterConf_eq; apply set_eq; intros x.
    + rewrite !pool_keywords. by setoid_rewrite Hp.
    + rewrite !pool_lang. by setoid_rewrite Hp.
Qed.

Lemma _pool_config_app_Permutation_witness :
  ConfigManager._pool_config [conf_of "p1" "a"; conf_endpoints]
  = ConfigManager._pool_config [conf_endpoints; conf_of "p1" "a"].
Proof.
  apply (proj2 _pool_config_app_Permutation). apply perm_swap.
Defined.

(** ** The files *)

Section Files.

Variable encoder : string → string.
Variable floatstr : N → string.
Variable writable : string → bool.


End Files.


(** ** Responses the fetcher cannot tell apart *)

Lemma while_repeat_alike client client' req fuel records w :
  (∀ n, alike (client n req) (client' n req)) →
  while_repeat fuel client req records w
  = while_repeat fuel client' req records w.
Proof.
  intros Hal. revert records w.
  induction fuel as [|fuel IH]; intros records w; [done|].
  cbn [while_repeat]. specialize (Hal (requests w)).
  destruct (client (requests w) req) as [p|e],
    (client' (requests w) req) as [p'|e']; try done; simpl in Hal.
  - destruct Hal as [Hf He]. rewrite !for_events_spec, Hf, He.
    destruct (true && negb (has_End p')); [apply IH|done].
  - subst e'. destruct e as [code message| | | | | | | | |]; try done.
    destruct (String.eqb code "NoSuchKey"); [apply IH|done].
Qed.

(** X20: the fetcher sees a response only through the bytes of its
    fragments and the presence of an end marker: how the store cuts the
    payload into events, and the events that are neither data nor end,
    change nothing (a character whose bytes are in two fragments is
    decoded as one). *)
Theorem get_s3_object_alike client client' fuel bucket key ser w :
  (∀ n, alike (client n (select_all bucket key ser))
              (client' n (select_all bucket key ser))) →
  get_s3_object fuel client bucket key ser w
  = get_s3_object fuel client' bucket key ser w.
Proof.
  intros Hal. unfold get_s3_object.
  by rewrite (while_repeat_alike client client').
Qed.

Lemma get_s3_object_alike_witness :
  get_s3_object 1 store_split "bucket" "key" PyNone world0
  = get_s3_object 1 store_whole "bucket" "key" PyNone world0.
Proof.
  apply (get_s3_object_alike store_split store_whole 1 "bucket" "key" PyNone
           world0).
  intros [|n]; [by split|]. unfold store_split, store_whole, scripted.
  by destruct n.
Defined.

(** ** Documents that are not objects, and documents of records *)

Lemma mapM_key_Raise keys e :
  mapM (λ key, py_replace_underscores key ≫= Int.parse) keys = Raise e →
  e = AttributeError ∨ e = ValueError.
Proof.
  induction keys as [|k keys IH]; [done|].
  rewrite mapM_cons.
  destruct (py_replace_underscores k ≫= Int.parse) as [n|e'] eqn:Hk.
  - rewrite bind_Return.
    destruct (mapM _ keys) as [ns|e'']; [done|].
    rewrite bind_Raise. intros [= <-]. by apply IH.
  - rewrite bind_Raise. intros [= <-].
    destruct k; try (left; by simplify_eq/=).
    right. simpl in Hk. by apply parse_Raise in Hk.
Qed.

(** X21: a stored document that is not a JSON object is never loaded:
    if what [json.loads] returned is a list, a string, a number, a
    boolean or [None], loading raises [TypeError], [ValueError] or
    [AttributeError]. *)
Theorem load_document_not_object raw :
  (∀ doc, raw ≠ PyDict doc) →
  ∃ e, ConfigManager.load_document raw = Raise e ∧
       (e = TypeError ∨ e = ValueError ∨ e = AttributeError).
Proof.
  intros Hraw.
  assert (∀ key, py_getitem raw key = Raise TypeError) as Hget.
  { intros key. destruct raw; try done. by destruct (Hraw entries). }
  unfold ConfigManager.load_document.
  destruct (ConfigManager.latest_version raw) as [N|e] eqn:HN.
  - rewrite bind_Return, Hget, bind_Raise. eauto.
  - rewrite bind_Raise. exists e. split; [done|].
    unfold ConfigManager.latest_version in HN.
    destruct (py_iter raw) as [keys|e'] eqn:Hk.
    + rewrite bind_Return in HN.
      destruct (mapM _ keys) as [ns|e''] eqn:Hm.
      * rewrite bind_Return in HN. apply max_Raise in HN as [_ ->]. eauto.
      * rewrite bind_Raise in HN. injection HN as ->.
        apply mapM_key_Raise in Hm as [->| ->]; eauto.
    + rewrite bind_Raise in HN. injection HN as ->.
      destruct raw; simplify_eq/=; eauto.
Qed.

Lemma load_document_not_object_witness :
  ∃ e, ConfigManager.load_document (PyList [PyStr "_1"]) = Raise e ∧
       (e = TypeError ∨ e = ValueError ∨ e = AttributeError).
Proof.
  apply (load_document_not_object (PyList [PyStr "_1"])).
  intros doc. discriminate.
Defined.

(** X22: a collection stored as records under the highest label is
    loaded back as it is: when the keys of the document are version
    labels and the array under the largest holds the records of the
    configurations [confs], loading returns [confs], in the same
    order. *)
Theorem load_document_of_records doc (N : Z) confs :
  Forall (λ k, ∃ n, k = version_label n ∧ n ≤ N) (dict_keys doc) →
  dict_get doc (version_label N) = Some (PyList (to_record <$> confs)) →
  ConfigManager.load_document (PyDict doc) = Return confs.
Proof.
  intros Hkeys Hget.
  rewrite (load_document_array _ N (to_record <$> confs)).
  - apply mapM_Return_Forall2, Forall2_fmap_l, Forall_Forall2_diag.
    apply Forall_forall. intros conf _. apply from_dict_of_record.
  - apply latest_version_labels; [done|]. by eapply dict_get_keys.
  - simpl. by rewrite Hget.
Qed.

Lemma load_document_of_records_witness :
  ConfigManager.load_document
    (PyDict [("_1", PyList [to_record (conf_of "p1" "a")]);
             ("_2", PyList (to_record <$> [conf_endpoints; conf_of "p1" "a"]))])
  = Return [conf_endpoints; conf_of "p1" "a"].
Proof.
  apply (load_document_of_records
           [("_1", PyList [to_record (conf_of "p1" "a")]);
            ("_2", PyList (to_record <$> [conf_endpoints; conf_of "p1" "a"]))]
           2 [conf_endpoints; conf_of "p1" "a"]).
  - repeat constructor.
    + exists 1. split; [vm_compute; reflexivity|lia].
    + exists 2. split; [vm_compute; reflexivity|lia].
  - vm_compute. reflexivity.
Defined.
